(** * Calendar assistant: the rule-based dialogue engine of [backend/agent.py]

    A shallow embedding of [extract_intent], [extract_date_time],
    [get_free_slots], [parse_time_to_hour], [suggest_time_slots] and
    [process_user_message], followed by the properties of the engine.

    Modelling conventions.
    - Text is a [string] of 8-bit characters read as ASCII: [lower] and the
      classes [\d], [\s], [\w] act on the ASCII range only.
    - A [datetime] is its proleptic-Gregorian day number ([toordinal]) with the
      time-of-day fields; [weekday] and the addition of whole days are the ones
      of CPython's [datetime] on day numbers.  The [MINYEAR]/[MAXYEAR] bounds
      are not modelled.
    - A date kept in the session state or in an event is an ISO-8601 string in
      the source; [isoformat] followed by [fromisoformat] is the identity, so
      such a string is modelled by the [datetime] it denotes ([VIso]).
    - [datetime.now()] is read once per turn and passed as [now].
    - The session state is a dict from keys to values of the four kinds the
      controller stores: a flag, an ISO date, a list of slot labels, a booking
      dict.  A value of the wrong kind under a key raises where Python raises.
    - dateutil's fuzzy parser and the rendering of an ISO string are outside
      the repository; both are parameters of the development.
    - A reply is the f-string template that produced it together with the
      values spliced into it; [strftime] is not modelled. *)

From Stdlib Require Import ZArith String Ascii List Lia DecimalString DecimalZ.
From stdpp Require Import gmap strings list.

Local Open Scope string_scope.
Local Open Scope Z_scope.

(** ** Python string primitives *)
Module Py.

Definition code (c : ascii) : N := N_of_ascii c.

(** [str.isspace] on one ASCII character: TAB, LF, VT, FF, CR, FS, GS, RS, US
    and the space. *)
Definition is_space (c : ascii) : bool :=
  ((9 <=? code c) && (code c <=? 13) || (28 <=? code c) && (code c <=? 32))%N.

Definition is_digit (c : ascii) : bool :=
  ((48 <=? code c) && (code c <=? 57))%N.

Definition is_upper (c : ascii) : bool :=
  ((65 <=? code c) && (code c <=? 90))%N.

Definition is_lower (c : ascii) : bool :=
  ((97 <=? code c) && (code c <=? 122))%N.

(** [\w]: letters, digits and the underscore. *)
Definition is_word (c : ascii) : bool :=
  is_upper c || is_lower c || is_digit c || (code c =? 95)%N.

Definition lower_char (c : ascii) : ascii :=
  if is_upper c then ascii_of_N (code c + 32) else c.

Fixpoint lower (s : string) : string :=
  match s with
  | EmptyString => EmptyString
  | String c s' => String (lower_char c) (lower s')
  end.

Fixpoint lstrip (s : string) : string :=
  match s with
  | EmptyString => EmptyString
  | String c s' => if is_space c then lstrip s' else s
  end.

Fixpoint rstrip (s : string) : string :=
  match s with
  | EmptyString => EmptyString
  | String c s' =>
      match rstrip s' with
      | EmptyString => if is_space c then EmptyString else String c EmptyString
      | r => String c r
      end
  end.

Definition strip (s : string) : string := rstrip (lstrip s).

(** [needle in hay] for two strings. *)
Fixpoint contains (needle hay : string) : bool :=
  String.prefix needle hay
  || match hay with
     | EmptyString => false
     | String _ hay' => contains needle hay'
     end.

(** [any(word in text for word in words)] *)
Definition any_in (words : list string) (text : string) : bool :=
  existsb (fun w => contains w text) words.

(** [s.replace(needle, '')] for a non-empty needle: [skip] characters of a
    match just found are still to be dropped. *)
Fixpoint remove_from (needle s : string) (skip : nat) : string :=
  match s with
  | EmptyString => EmptyString
  | String c s' =>
      match skip with
      | S k => remove_from needle s' k
      | O => if String.prefix needle s
             then remove_from needle s' (String.length needle - 1)
             else String c (remove_from needle s' O)
      end
  end.

Definition remove_all (needle s : string) : string := remove_from needle s O.

(** [s.split(sep)] for a one-character separator. *)
Fixpoint split_on (sep : ascii) (s : string) : list string :=
  match s with
  | EmptyString => [EmptyString]
  | String c s' =>
      if Ascii.eqb c sep then EmptyString :: split_on sep s'
      else match split_on sep s' with
           | [] => [String c EmptyString]
           | p :: ps => String c p :: ps
           end
  end.

Definition digit_val (c : ascii) : Z := Z.of_N (code c) - 48.

(** The digits of an [int] literal: single underscores may separate digits. *)
Fixpoint digits_val (s : string) (acc : Z) (after_digit : bool) : option Z :=
  match s with
  | EmptyString => if after_digit then Some acc else None
  | String c s' =>
      if is_digit c then digits_val s' (10 * acc + digit_val c) true
      else if Ascii.eqb c "_" && after_digit then digits_val s' acc false
      else None
  end.

(** [int(s)]; [None] stands for [ValueError]. *)
Definition int (s : string) : option Z :=
  match strip s with
  | String "+" r => digits_val r 0 false
  | String "-" r => Z.opp <$> digits_val r 0 false
  | t => digits_val t 0 false
  end.

(** [f"{n:02d}"] *)
Definition fmt_02d (n : Z) : string :=
  let s := NilZero.string_of_int (Z.to_int n) in
  if (String.length s <? 2)%nat then String "0" s else s.

End Py.

(** ** The fragment of [re] the engine uses

    A backtracking matcher in continuation-passing style: alternatives are
    tried left to right and quantifiers are greedy, as in Python.  [prev] is
    the character before the current position ([None] at the start of the
    text); it decides [^] and [\b]. *)
Module Re.

Inductive regex : Type :=
| Eps
| Cls (p : ascii -> bool)
| Lit (s : string)
| Cat (r1 r2 : regex)
| Alt (r1 r2 : regex)
| Opt (r : regex)
| Star (p : ascii -> bool)
| Grp (i : nat) (r : regex)
| Bol
| Eol
| Wb.

Definition groups : Type := list (nat * string).

Definition group (i : nat) (g : groups) : option string :=
  snd <$> List.find (fun p => Nat.eqb (fst p) i) g.

(** The text consumed between the position [s] and the later position [s']. *)
Definition taken (s s' : string) : string :=
  String.substring 0 (String.length s - String.length s') s.

Fixpoint eat (l : string) (prev : option ascii) (s : string)
  : option (option ascii * string) :=
  match l with
  | EmptyString => Some (prev, s)
  | String c l' =>
      match s with
      | String d s' => if Ascii.eqb c d then eat l' (Some d) s' else None
      | EmptyString => None
      end
  end.

Definition word_before (prev : option ascii) : bool :=
  match prev with Some c => Py.is_word c | None => false end.

Definition word_after (s : string) : bool :=
  match s with String c _ => Py.is_word c | EmptyString => false end.

(** [$] without MULTILINE: the end of the text, or just before a final LF. *)
Definition at_end (s : string) : bool :=
  match s with
  | EmptyString => true
  | String c EmptyString => (Py.code c =? 10)%N
  | _ => false
  end.

Section Run.
Context {R : Type}.
Definition cont : Type := option ascii -> string -> groups -> option R.

Fixpoint star (p : ascii -> bool) (prev : option ascii) (s : string)
    (g : groups) (k : cont) : option R :=
  match s with
  | String c s' =>
      if p c then
        match star p (Some c) s' g k with
        | Some x => Some x
        | None => k prev s g
        end
      else k prev s g
  | EmptyString => k prev s g
  end.

Fixpoint run (r : regex) (prev : option ascii) (s : string) (g : groups)
    (k : cont) : option R :=
  match r with
  | Eps => k prev s g
  | Cls p =>
      match s with
      | String c s' => if p c then k (Some c) s' g else None
      | EmptyString => None
      end
  | Lit l =>
      match eat l prev s with
      | Some (prev', s') => k prev' s' g
      | None => None
      end
  | Cat r1 r2 => run r1 prev s g (fun prev' s' g' => run r2 prev' s' g' k)
  | Alt r1 r2 =>
      match run r1 prev s g k with
      | Some x => Some x
      | None => run r2 prev s g k
      end
  | Opt r1 =>
      match run r1 prev s g k with
      | Some x => Some x
      | None => k prev s g
      end
  | Star p => star p prev s g k
  | Grp i r1 =>
      run r1 prev s g (fun prev' s' g' => k prev' s' ((i, taken s s') :: g'))
  | Bol => match prev with None => k prev s g | Some _ => None end
  | Eol => if at_end s then k prev s g else None
  | Wb => if xorb (word_before prev) (word_after s) then k prev s g else None
  end.
End Run.

(** A match at the current position: the rest of the text and the groups. *)
Definition match_here (r : regex) (prev : option ascii) (s : string)
  : option (string * groups) :=
  run r prev s [] (fun _ s' g => Some (s', g)).

(** [re.match(r, s)]: the groups of a match at the start of [s]. *)
Definition re_match (r : regex) (s : string) : option groups :=
  snd <$> match_here r None s.

Fixpoint search_from (r : regex) (prev : option ascii) (s : string)
  : option groups :=
  match match_here r prev s with
  | Some (_, g) => Some g
  | None =>
      match s with
      | String c s' => search_from r (Some c) s'
      | EmptyString => None
      end
  end.

(** [re.search(r, s)]: the groups of the leftmost match. *)
Definition search (r : regex) (s : string) : option groups :=
  search_from r None s.

(** [re.sub(r, '', s)] for a pattern that matches no empty text. *)
Fixpoint sub_from (r : regex) (prev : option ascii) (s : string) (skip : nat)
  : string :=
  match s with
  | EmptyString => EmptyString
  | String c s' =>
      match skip with
      | S k => sub_from r (Some c) s' k
      | O =>
          match match_here r prev s with
          | Some (rest, _) =>
              match (String.length s - String.length rest)%nat with
              | O => String c (sub_from r (Some c) s' O)
              | S k => sub_from r (Some c) s' k
              end
          | None => String c (sub_from r (Some c) s' O)
          end
      end
  end.

Definition sub_empty (r : regex) (s : string) : string := sub_from r None s O.

(** Shorthands for the pieces the patterns are built from. *)
Definition d : regex := Cls Py.is_digit.
Definition d12 : regex := Cat d (Opt d).            (* \d{1,2} *)
Definition d2 : regex := Cat d d.                   (* \d{2}   *)
Definition ws : regex := Star Py.is_space.          (* \s*     *)
Definition ws1 : regex := Cat (Cls Py.is_space) ws. (* \s+     *)
Definition ampm : regex := Alt (Lit "am") (Lit "pm").

Fixpoint alts (l : list string) : regex :=
  match l with
  | [] => Cls (fun _ => false)
  | [w] => Lit w
  | w :: l' => Alt (Lit w) (alts l')
  end.

End Re.

(** ** Dates *)
Record datetime : Type := mk_datetime {
  ordinal : Z;       (* date().toordinal() *)
  hour : Z;
  minute : Z;
  second : Z;
  microsecond : Z
}.

#[global] Instance datetime_eq_dec : EqDecision datetime.
Proof. solve_decision. Defined.

(** [d.date()] *)
Definition date_of (d : datetime) : Z := ordinal d.

(** [d.weekday()]: Monday is 0. *)
Definition weekday (d : datetime) : Z := (ordinal d + 6) mod 7.

(** [d + timedelta(days=n)] *)
Definition add_days (n : Z) (d : datetime) : datetime :=
  mk_datetime (ordinal d + n) (hour d) (minute d) (second d) (microsecond d).

(** [d.replace(hour=h, minute=m)]; [None] stands for [ValueError]. *)
Definition replace_hm (h m : Z) (d : datetime) : option datetime :=
  if (0 <=? h) && (h <=? 23) && (0 <=? m) && (m <=? 59)
  then Some (mk_datetime (ordinal d) h m (second d) (microsecond d))
  else None.

(** Instants compared as Python compares naive datetimes. *)
Definition dt_key (d : datetime) : list Z :=
  [ordinal d; hour d; minute d; second d; microsecond d].

Fixpoint lex_leb (a b : list Z) : bool :=
  match a, b with
  | [], _ => true
  | _ :: _, [] => false
  | x :: a', y :: b' => (x <? y) || ((x =? y) && lex_leb a' b')
  end.

Definition dt_leb (a b : datetime) : bool := lex_leb (dt_key a) (dt_key b).
Definition dt_ltb (a b : datetime) : bool := negb (dt_leb b a).

(** ** Session state, calendar store and replies *)

(** The dict kept under ["pending_booking"]: lines 302-307 and 390-395 give it
    all four keys, lines 354-357 only ["date"] and ["time"]. *)
Record booking : Type := mk_booking {
  bk_date : datetime;            (* an ISO string *)
  bk_time : string;
  bk_duration : option Z;
  bk_title : option string
}.

(** The kinds of value the controller stores in the session state. *)
Inductive value : Type :=
| VBool (b : bool)
| VIso (d : datetime)
| VSlots (l : list string)
| VBooking (b : booking).

#[global] Instance booking_eq_dec : EqDecision booking.
Proof. solve_decision. Defined.

#[global] Instance value_eq_dec : EqDecision value.
Proof. solve_decision. Defined.

Abbreviation session_state := (gmap string value).

(** One element of [calendar_events]. *)
Record event : Type := mk_event {
  ev_date : datetime;            (* an ISO string *)
  ev_time : string;
  ev_duration : Z;
  ev_title : string
}.

Inductive exn : Type :=
| ValueError | TypeError | AttributeError | KeyError | IndexError.

(** The replies, one constructor per message template of the source. *)
Inductive response : Type :=
| RConfirmed (d : datetime)                       (* l.275 *)
| RNoPending                                      (* l.281 *)
| RBadHour13                                      (* l.297 *)
| RSelected (t : string) (d : datetime)           (* l.309, 359, 397 *)
| RFreeSlotsAskHour (d : datetime) (slots : list string)   (* l.320, 458 *)
| RNoFreeSlots (d : datetime)                     (* l.325, 463, 543, 560, 604 *)
| RAskDate                                        (* l.331, 449 *)
| RGreeting                                       (* l.339 *)
| RNotAvailableSlot (t : string)                  (* l.364 *)
| RNotAvailableSlotOf (t : string) (joined : string)  (* l.402 *)
| RBadHour15                                      (* l.407 *)
| RHelpOneLine                                    (* l.413 *)
| RBooked (d : datetime) (t : string)             (* l.432 *)
| RCancelled                                      (* l.440 *)
| RAskWhen                                        (* l.473 *)
| RRange (d : datetime) (start_s end_s : string) (slots : list string)  (* l.503 *)
| RNoRange (d : datetime) (start_s end_s : string)                     (* l.508 *)
| RPerfect (d : datetime) (t : string)            (* l.523, 584 *)
| RTimeTaken (t : string) (d : datetime) (suggestion : string)  (* l.529, 590 *)
| RGreat (d : datetime) (suggestion : string)     (* l.537, 598 *)
| RFreeSlots (d : datetime) (slots : list string) (* l.555 *)
| RStillWaitingDate                               (* l.568, 609 *)
| RStillWaitingTime                               (* l.614 *)
| RStillWaitingCheckDate                          (* l.619 *)
| RHelp.                                          (* l.624 *)

(** What a turn does: it returns [{response, session_state}], or an exception
    leaves [process_user_message].  Both record the calendar store after the
    turn; [Raise] records the caller's dict as the turn left it. *)
Inductive outcome : Type :=
| Return (r : response) (st : session_state) (cal : list event)
| Raise (e : exn) (st : session_state) (cal : list event).

(** Truth value of [session_state.get(key)]. *)
Definition truthy (v : option value) : bool :=
  match v with
  | None => false
  | Some (VBool b) => b
  | Some (VIso _) => true
  | Some (VSlots l) => match l with [] => false | _ :: _ => true end
  | Some (VBooking _) => true
  end.

(** Truth value of the dict itself. *)
Definition nonempty (st : session_state) : bool := negb (bool_decide (st = ∅)).

(** Truth value of an optional string. *)
Definition str_truthy (s : option string) : bool :=
  match s with
  | Some t => negb (t =? "")%string
  | None => false
  end.

Definition booking_keys (b : booking) : list string :=
  ["date"; "time"]
  ++ match bk_duration b with Some _ => ["duration"] | None => [] end
  ++ match bk_title b with Some _ => ["title"] | None => [] end.

(** [datetime.fromisoformat(v)]; [None] stands for [TypeError]. *)
Definition fromisoformat (v : value) : option datetime :=
  match v with
  | VIso d => Some d
  | _ => None
  end.

Definition event_of_booking (b : booking) : event :=
  mk_event (bk_date b) (bk_time b)
           (default 60 (bk_duration b)) (default "Meeting" (bk_title b)).

Definition chars (s : string) : list string :=
  (fun c => String c EmptyString) <$> list_ascii_of_string s.

(** [range(lo, hi)] *)
Definition py_range (lo hi : Z) : list Z :=
  Z.of_nat <$> seq (Z.to_nat lo) (Z.to_nat (hi - lo)).

(** [f"{hour:02d}:00"] *)
Definition slot_label (h : Z) : string := Py.fmt_02d h +:+ ":00".

(** ** [get_free_slots] (l.184-197) *)

Fixpoint booked_on (cal : list event) (date : datetime) : list string :=
  match cal with
  | [] => []
  | e :: cal' =>
      if date_of (ev_date e) =? date_of date
      then ev_time e :: booked_on cal' date
      else booked_on cal' date
  end.

Definition get_free_slots (cal : list event) (date : datetime) : list string :=
  let slots := slot_label <$> py_range 9 18 in
  let booked := booked_on cal date in
  List.filter (fun s => negb (bool_decide (s ∈ booked))) slots.

(** ** [parse_time_to_hour] (l.199-236); [None] stands for [ValueError] *)

(** [hour, minute = time_str.split(':')] followed by [int(hour)] *)
Definition hour_before_colon (t : string) : option Z :=
  match Py.split_on ":" t with
  | [h; _] => Py.int h
  | _ => None
  end.

Definition parse_time_to_hour (time_str : string) : option Z :=
  let t := Py.lower (Py.strip time_str) in
  if Py.contains "pm" t then
    let t := Py.strip (Py.remove_all "pm" t) in
    h ← (if Py.contains ":" t then hour_before_colon t else Py.int t);
    Some (if h =? 12 then h else h + 12)
  else if Py.contains "am" t then
    let t := Py.strip (Py.remove_all "am" t) in
    h ← (if Py.contains ":" t then hour_before_colon t else Py.int t);
    Some (if h =? 12 then 0 else h)
  else
    if Py.contains ":" t then hour_before_colon t else Py.int t.

(** ** [suggest_time_slots] (l.238-246) *)
Definition suggest_time_slots (free_slots : list string) : string :=
  match free_slots with
  | [] => "I'm sorry, but I don't have any free slots available."
  | _ :: _ =>
      if (length free_slots <=? 3)%nat
      then "I have these slots available: "
           +:+ String.concat ", " free_slots +:+ "."
      else "I have several slots available, including "
           +:+ String.concat ", " (take 3 free_slots) +:+ " and more."
  end.

(** ** The patterns *)

(** [^\d{1,2}$] *)
Definition pat_number : Re.regex := Re.Cat Re.Bol (Re.Cat Re.d12 Re.Eol).

(** [\b(book|schedule|meeting|call|appointment|for|at|on)\b] *)
Definition pat_stop_words : Re.regex :=
  Re.Cat Re.Wb
    (Re.Cat (Re.Grp 1 (Re.alts ["book"; "schedule"; "meeting"; "call";
                                "appointment"; "for"; "at"; "on"]))
            Re.Wb).

(** [(\d{1,2}):(\d{2})\s*(am|pm)?] *)
Definition pat_hm : Re.regex :=
  Re.Cat (Re.Grp 1 Re.d12)
    (Re.Cat (Re.Lit ":")
       (Re.Cat (Re.Grp 2 Re.d2) (Re.Cat Re.ws (Re.Opt (Re.Grp 3 Re.ampm))))).

(** [(\d{1,2})\s*(am|pm)] *)
Definition pat_h_ampm : Re.regex :=
  Re.Cat (Re.Grp 1 Re.d12) (Re.Cat Re.ws (Re.Grp 2 Re.ampm)).

(** [^(\d{1,2})$] *)
Definition pat_h : Re.regex := Re.Cat Re.Bol (Re.Cat (Re.Grp 1 Re.d12) Re.Eol).

(** [\d{1,2}(?::\d{2})?\s*(?:am|pm)?] *)
Definition pat_clock : Re.regex :=
  Re.Cat Re.d12
    (Re.Cat (Re.Opt (Re.Cat (Re.Lit ":") Re.d2)) (Re.Cat Re.ws (Re.Opt Re.ampm))).

(** [between\s+(<clock>)\s*-\s*(<clock>)] *)
Definition pat_between : Re.regex :=
  Re.Cat (Re.Lit "between")
    (Re.Cat Re.ws1
       (Re.Cat (Re.Grp 1 pat_clock)
          (Re.Cat Re.ws (Re.Cat (Re.Lit "-") (Re.Cat Re.ws (Re.Grp 2 pat_clock)))))).

(** [int(g)] and [g] itself for a group [g] that takes part in every match of
    its pattern; where the group is [\d{1,2}] or [\d{2}], [int] cannot raise. *)
Definition group_text (i : nat) (g : Re.groups) : string :=
  default "" (Re.group i g).

Definition group_int (i : nat) (g : Re.groups) : Z :=
  default 0 (Py.int (group_text i g)).

(** ** The engine *)
Section Agent.

(** dateutil's [parser.parse(clean_text, fuzzy=True, default=today)], with any
    exception turned into [None] by the [try] of l.128-133. *)
Variable fuzzy_parse : string -> datetime -> option datetime.

(** The text of [d.isoformat()]. *)
Variable isoformat : datetime -> string.

(** [x in v] for a stored value; [None] stands for [TypeError]. *)
Definition py_in (x : string) (v : value) : option bool :=
  match v with
  | VSlots l => Some (bool_decide (x ∈ l))
  | VIso d => Some (Py.contains x (isoformat d))
  | VBooking b => Some (bool_decide (x ∈ booking_keys b))
  | VBool _ => None
  end.

(** [', '.join(v)] for a stored value; [None] stands for [TypeError]. *)
Definition py_join (v : value) : option string :=
  match v with
  | VSlots l => Some (String.concat ", " l)
  | VIso d => Some (String.concat ", " (chars (isoformat d)))
  | VBooking b => Some (String.concat ", " (booking_keys b))
  | VBool _ => None
  end.

(** *** [extract_date_time] (l.69-182) *)

Definition day_patterns : list (string * Z) :=
  [("monday", 0); ("mon", 0);
   ("tuesday", 1); ("tue", 1); ("tues", 1);
   ("wednesday", 2); ("wed", 2);
   ("thursday", 3); ("thu", 3); ("thurs", 3);
   ("friday", 4); ("fri", 4);
   ("saturday", 5); ("sat", 5);
   ("sunday", 6); ("sun", 6)].

(** l.106-108, repeated at l.113-115 and l.120-122 *)
Definition days_ahead (day_num : Z) (today : datetime) : Z :=
  let d := day_num - weekday today in
  if d <=? 0 then d + 7 else d.

(** The loop of l.102-124. *)
Fixpoint day_of_week (pats : list (string * Z)) (text_lower : string)
    (today : datetime) : option datetime :=
  match pats with
  | [] => None
  | (day_name, day_num) :: pats' =>
      if Py.contains day_name text_lower then
        if Py.contains "this" text_lower then
          Some (add_days (days_ahead day_num today) today)
        else if Py.contains "next" text_lower then
          Some (add_days (days_ahead day_num today + 7) today)
        else
          Some (add_days (days_ahead day_num today) today)
      else day_of_week pats' text_lower today
  end.

Definition extract_date (text_lower : string) (today : datetime)
  : option datetime :=
  if Py.contains "tomorrow" text_lower then Some (add_days 1 today)
  else if Py.contains "today" text_lower then Some today
  else if Py.contains "next week" text_lower then
    let days_until_monday := (7 - weekday today) mod 7 in
    if days_until_monday =? 0 then Some (add_days 7 today)
    else Some (add_days days_until_monday today)
  else if Py.contains "this week" text_lower then Some (add_days 1 today)
  else
    match day_of_week day_patterns text_lower today with
    | Some date => Some date
    | None =>
        let clean_text := Re.sub_empty pat_stop_words text_lower in
        fuzzy_parse clean_text today
    end.

(** l.146-153 *)
Definition time_of_hm (g : Re.groups) : string :=
  let hour := group_int 1 g in
  let minute := group_text 2 g in
  let ampm := Re.group 3 g in          (* [None] when the group took no part *)
  let ampm_is (k : string) :=
    str_truthy ampm && (Py.lower (default "" ampm) =? k)%string in
  let hour :=
    if ampm_is "pm" && negb (hour =? 12) then hour + 12
    else if ampm_is "am" && (hour =? 12) then 0
    else hour in
  Py.fmt_02d hour +:+ ":" +:+ minute.

(** l.154-161 *)
Definition time_of_h_ampm (g : Re.groups) : string :=
  let hour := group_int 1 g in
  let ampm := group_text 2 g in
  let hour :=
    if (Py.lower ampm =? "pm")%string && negb (hour =? 12) then hour + 12
    else if (Py.lower ampm =? "am")%string && (hour =? 12) then 0
    else hour in
  Py.fmt_02d hour +:+ ":00".

(** l.162-171 *)
Definition time_of_h (g : Re.groups) : string :=
  let hour := group_int 1 g in
  let hour := if hour <? 6 then hour + 12 else hour in
  Py.fmt_02d hour +:+ ":00".

(** The loop over [time_patterns], l.143-172: the first pattern that matches
    decides. *)
Definition extract_clock (text_lower : string) : option string :=
  match Re.search pat_hm text_lower with
  | Some g => Some (time_of_hm g)
  | None =>
      match Re.search pat_h_ampm text_lower with
      | Some g => Some (time_of_h_ampm g)
      | None =>
          match Re.search pat_h text_lower with
          | Some g => Some (time_of_h g)
          | None => None
          end
      end
  end.

Definition extract_time (text_lower : string) : option string :=
  let time_str := extract_clock text_lower in
  if Py.contains "morning" text_lower then Some "09:00"
  else if Py.contains "afternoon" text_lower then Some "14:00"
  else if Py.contains "evening" text_lower then Some "17:00"
  else time_str.

Definition extract_date_time (now : datetime) (text : string)
  : option datetime * option string :=
  let text_lower := Py.strip (Py.lower text) in
  let today := now in
  (extract_date text_lower today, extract_time text_lower).

(** *** [extract_intent] (l.9-67) *)

Definition is_number (text_lower : string) : bool :=
  bool_decide (is_Some (Re.re_match pat_number text_lower)).

Definition extract_intent (now : datetime) (text : string)
    (session_state : session_state) : string :=
  let text_lower := Py.strip (Py.lower text) in
  let get k := truthy (session_state !! k) in
  if nonempty session_state && get "waiting_for_time"
     && is_number text_lower then "select_time"
  else if nonempty session_state && get "availability_date"
          && get "available_slots" && is_number text_lower then "select_time"
  else if nonempty session_state && get "waiting_for_time"
          && get "available_slots" && is_number text_lower then "select_time"
  else if nonempty session_state && get "booking_flow"
          && (bool_decide (is_Some (extract_date_time now text).1)
              || str_truthy (extract_date_time now text).2) then "book"
  else if nonempty session_state && get "checking_availability"
          && bool_decide (is_Some (extract_date_time now text).1) then "check"
  else if Py.any_in ["book"; "schedule"; "meeting"; "call"; "appointment";
                     "reserve"] text_lower then "book"
  else if Py.any_in ["free"; "available"; "availability"; "slots"; "open";
                     "have time"; "free time"; "check availability"]
                    text_lower then "check"
  else if Py.any_in ["cancel"; "remove"; "delete"; "unbook"] text_lower
       then "cancel"
  else if Py.any_in ["hi"; "hello"; "hey"; "greetings"] text_lower
       then "greeting"
  else if Py.any_in ["yes"; "yeah"; "sure"; "ok"; "okay"; "confirm"] text_lower
       then "confirm"
  else if Py.any_in ["no"; "nope"; "not"; "cancel"] text_lower then "reject"
  else "unknown".

(** *** [process_user_message] (l.248-626) *)

(** l.259-283: an intent of confirmation while a confirmation is pending. *)
Definition confirm_pending (st : session_state) (cal : list event) : outcome :=
  let booking := st !! "pending_booking" in
  if truthy booking then
    match booking with
    | Some (VBooking b) =>
        Return (RConfirmed (bk_date b)) ∅ (cal ++ [event_of_booking b])
    | _ => Raise TypeError st cal            (* booking["date"] *)
    end
  else Return RNoPending ∅ cal.

(** l.286-311: an hour typed after an availability check. *)
Definition select_after_availability (text : string) (st : session_state)
    (cal : list event) : outcome :=
  match st !! "availability_date" with
  | None => Raise KeyError st cal
  | Some v =>
      match Py.int (Py.strip text) with
      | None => Return RBadHour13 ∅ cal
      | Some hour =>
          let selected_time := slot_label hour in
          let st := <["pending_confirmation" := VBool true]> st in
          match v with
          | VIso selected_date =>
              match replace_hm hour 0 selected_date with
              | Some d =>
                  Return (RSelected selected_time selected_date)
                    (<["pending_booking" :=
                         VBooking (mk_booking d selected_time (Some 60)
                                     (Some "Meeting"))]> st)
                    cal
              | None => Raise ValueError st cal
              end
          | _ => Raise AttributeError st cal  (* selected_date.replace *)
          end
      end
  end.

(** l.314-333: the branch of the intent ["check_availability"]. *)
Definition check_availability_flow (date : option datetime)
    (st : session_state) (cal : list event) : outcome :=
  match date with
  | Some d =>
      let free_slots := get_free_slots cal d in
      match free_slots with
      | _ :: _ =>
          Return (RFreeSlotsAskHour d free_slots)
            (<["availability_date" := VIso d]> ∅) cal
      | [] => Return (RNoFreeSlots d) ∅ cal
      end
  | None =>
      Return RAskDate (<["checking_availability" := VBool true]> st) cal
  end.

(** l.346-368.  [None]: the guard is false, or the [try] swallowed an
    exception, and control goes on to l.371. *)
Definition select_from_availability (text : string) (st : session_state)
    (cal : list event) : option outcome :=
  if truthy (st !! "availability_date") && truthy (st !! "available_slots")
  then
    hour ← Py.int (Py.strip text);
    let selected_time := slot_label hour in
    slots ← st !! "available_slots";
    found ← py_in selected_time slots;
    if found : bool then
      v ← st !! "availability_date";
      selected_date ← fromisoformat v;
      Some (Return (RSelected selected_time selected_date)
              (<["pending_booking" :=
                   VBooking (mk_booking selected_date selected_time None None)]>
                 (<["pending_confirmation" := VBool true]> st))
              cal)
    else Some (Return (RNotAvailableSlot selected_time) st cal)
  else None.

(** l.379-386 *)
Definition date_for_selection (now : datetime) (st : session_state)
  : option datetime :=
  if truthy (st !! "selected_date") then st !! "selected_date" ≫= fromisoformat
  else if truthy (st !! "availability_date")
       then st !! "availability_date" ≫= fromisoformat
  else Some now.

(** l.371-409.  [None]: the guard is false and control goes on to l.412. *)
Definition select_from_range (now : datetime) (text : string)
    (st : session_state) (cal : list event) : option outcome :=
  if truthy (st !! "waiting_for_time") && truthy (st !! "available_slots")
  then
    let sorry st := Some (Return RBadHour15 st cal) in
    match Py.int (Py.strip text), st !! "available_slots" with
    | Some hour, Some slots =>
        let selected_time := slot_label hour in
        match py_in selected_time slots with
        | Some true =>
            match date_for_selection now st with
            | Some selected_date =>
                let st := <["pending_confirmation" := VBool true]> st in
                match replace_hm hour 0 selected_date with
                | Some d =>
                    Some (Return (RSelected selected_time selected_date)
                            (<["pending_booking" :=
                                 VBooking (mk_booking d selected_time (Some 60)
                                             (Some "Meeting"))]> st)
                            cal)
                | None => sorry st
                end
            | None => sorry st
            end
        | Some false =>
            match py_join slots with
            | Some joined =>
                Some (Return (RNotAvailableSlotOf selected_time joined) st cal)
            | None => sorry st
            end
        | None => sorry st
        end
    | _, _ => sorry st
    end
  else None.

(** l.344-415 *)
Definition time_selection (now : datetime) (text : string)
    (st : session_state) (cal : list event) : outcome :=
  match select_from_availability text st cal with
  | Some o => o
  | None =>
      match select_from_range now text st cal with
      | Some o => o
      | None => Return RHelpOneLine ∅ cal
      end
  end.

(** l.419-434 *)
Definition confirm_intent (st : session_state) (cal : list event) : outcome :=
  match st !! "pending_booking" with
  | Some (VBooking b) =>
      Return (RBooked (bk_date b) (bk_time b)) ∅ (cal ++ [event_of_booking b])
  | Some _ => Raise TypeError st cal
  | None => Raise KeyError st cal
  end.

(** l.446-465 *)
Definition availability_check (date : option datetime) (st : session_state)
    (cal : list event) : outcome :=
  match date with
  | None =>
      Return RAskDate (<["checking_availability" := VBool true]> st) cal
  | Some d =>
      let free_slots := get_free_slots cal d in
      match free_slots with
      | _ :: _ =>
          Return (RFreeSlotsAskHour d free_slots)
            (<["available_slots" := VSlots free_slots]>
               (<["availability_date" := VIso d]> ∅))
            cal
      | [] => Return (RNoFreeSlots d) ∅ cal
      end
  end.

(** The loop of l.493-497; [None] stands for [ValueError]. *)
Fixpoint slots_in_range (start_hour end_hour : Z) (free_slots : list string)
  : option (list string) :=
  match free_slots with
  | [] => Some []
  | slot :: rest =>
      slot_hour ← Py.int (hd "" (Py.split_on ":" slot));
      in_range ← slots_in_range start_hour end_hour rest;
      Some (if (start_hour <=? slot_hour) && (slot_hour <=? end_hour)
            then slot :: in_range else in_range)
  end.

(** l.515-525, repeated at l.576-586: the state is cleared, then the event is
    built and appended. *)
Definition book_directly (date : datetime) (time_str : string)
    (cal : list event) : outcome :=
  let parts := Py.split_on ":" time_str in
  match Py.int (hd "" parts) with
  | None => Raise ValueError ∅ cal
  | Some h =>
      match parts !! 1%nat with
      | None => Raise IndexError ∅ cal
      | Some m =>
          match Py.int m with
          | None => Raise ValueError ∅ cal
          | Some m =>
              match replace_hm h m date with
              | Some d =>
                  Return (RPerfect date time_str) ∅
                    (cal ++ [mk_event d time_str 60 "Meeting"])
              | None => Raise ValueError ∅ cal
              end
          end
      end
  end.

(** l.512-545, repeated at l.573-606 *)
Definition book_or_offer (date : datetime) (time_str : option string)
    (free_slots : list string) (st : session_state) (cal : list event)
  : outcome :=
  if str_truthy time_str then
    let time_str := default "" time_str in
    if bool_decide (time_str ∈ free_slots) then book_directly date time_str cal
    else
      Return (RTimeTaken time_str date (suggest_time_slots free_slots))
        (<["waiting_for_time" := VBool true]> st) cal
  else
    match free_slots with
    | _ :: _ =>
        Return (RGreat date (suggest_time_slots free_slots))
          (<["available_slots" := VSlots free_slots]>
             (<["waiting_for_time" := VBool true]> st))
          cal
    | [] =>
        Return (RNoFreeSlots date) (<["waiting_for_date" := VBool true]> st) cal
    end.

(** l.482-510: the text names a range of hours. *)
Definition book_in_range (date : datetime) (g : Re.groups)
    (free_slots : list string) (st : session_state) (cal : list event)
  : outcome :=
  let start_time_str := group_text 1 g in
  let end_time_str := group_text 2 g in
  match parse_time_to_hour start_time_str with
  | None => Raise ValueError st cal
  | Some start_hour =>
      match parse_time_to_hour end_time_str with
      | None => Raise ValueError st cal
      | Some end_hour =>
          match slots_in_range start_hour end_hour free_slots with
          | None => Raise ValueError st cal
          | Some [] =>
              Return (RNoRange date start_time_str end_time_str) st cal
          | Some available_in_range =>
              Return (RRange date start_time_str end_time_str available_in_range)
                (<["available_slots" := VSlots available_in_range]>
                   (<["waiting_for_time" := VBool true]> st))
                cal
          end
      end
  end.

(** l.468-545 *)
Definition booking_intent (text : string) (date : option datetime)
    (time_str : option string) (st : session_state) (cal : list event)
  : outcome :=
  let st := <["booking_flow" := VBool true]> st in
  match date with
  | None => Return RAskWhen (<["waiting_for_date" := VBool true]> st) cal
  | Some d =>
      let free_slots := get_free_slots cal d in
      let st := <["selected_date" := VIso d]> st in
      match Re.search pat_between (Py.lower text) with
      | Some g => book_in_range d g free_slots st cal
      | None => book_or_offer d time_str free_slots st cal
      end
  end.

(** l.563-626: the [elif] chain after the test of l.550. *)
Definition flow_fallback (date : option datetime) (time_str : option string)
    (st : session_state) (cal : list event) : outcome :=
  if truthy (st !! "booking_flow")
     && (bool_decide (is_Some date) || str_truthy time_str) then
    match date with
    | None =>
        Return RStillWaitingDate (<["waiting_for_date" := VBool true]> st) cal
    | Some d =>
        let free_slots := get_free_slots cal d in
        let st := <["selected_date" := VIso d]> st in
        book_or_offer d time_str free_slots st cal
    end
  else if truthy (st !! "waiting_for_date") then
    Return RStillWaitingDate st cal
  else if truthy (st !! "waiting_for_time") then
    Return RStillWaitingTime st cal
  else if truthy (st !! "checking_availability") then
    Return RStillWaitingCheckDate st cal
  else Return RHelp st cal.

(** l.548-626 *)
Definition flow_management (date : option datetime) (time_str : option string)
    (st : session_state) (cal : list event) : outcome :=
  match date with
  | Some d =>
      if truthy (st !! "checking_availability") then
        match get_free_slots cal d with
        | (_ :: _) as free_slots => Return (RFreeSlots d free_slots) ∅ cal
        | [] => Return (RNoFreeSlots d) ∅ cal
        end
      else flow_fallback date time_str st cal
  | None => flow_fallback date time_str st cal
  end.

Definition process_user_message (now : datetime) (text : string)
    (session_state : session_state) (cal : list event) : outcome :=
  (* l.251-252: an empty or absent state is replaced by a new empty dict *)
  let st := session_state in
  let intent := extract_intent now text st in
  let '(date, time_str) := extract_date_time now text in
  if truthy (st !! "pending_confirmation")
     && bool_decide (intent ∈ ["confirm"; "yes"; "ok"]) then
    confirm_pending st cal
  else if truthy (st !! "availability_date")
          && (intent =? "select_time")%string then
    select_after_availability text st cal
  else if (intent =? "check_availability")%string then
    check_availability_flow date st cal
  else if (intent =? "greeting")%string then Return RGreeting ∅ cal
  else if (intent =? "select_time")%string then time_selection now text st cal
  else if (intent =? "confirm")%string && truthy (st !! "pending_confirmation")
          && truthy (st !! "pending_booking") then
    confirm_intent st cal
  else if (intent =? "cancel")%string && truthy (st !! "pending_confirmation")
  then Return RCancelled ∅ cal
  else if (intent =? "check")%string then availability_check date st cal
  else if (intent =? "book")%string then
    booking_intent text date time_str st cal
  else flow_management date time_str st cal.

End Agent.

(** ** Conversations *)
Section Dialogue.

Variable fuzzy_parse : string -> datetime -> option datetime.
Variable isoformat : datetime -> string.

Definition turn : datetime -> string -> session_state -> list event -> outcome :=
  process_user_message fuzzy_parse isoformat.

(** The pairs of a session state and a calendar store that a conversation can
    be in: it starts with an empty state over any store, and each turn that
    returns hands its state and the store to the next turn. *)
Inductive reachable : session_state -> list event -> Prop :=
| reach_fresh cal : reachable ∅ cal
| reach_turn st cal now text r st' cal' :
    reachable st cal ->
    turn now text st cal = Return r st' cal' ->
    reachable st' cal'.

End Dialogue.

Definition store_of (o : outcome) : list event :=
  match o with
  | Return _ _ cal | Raise _ _ cal => cal
  end.

(** The nine labels of the business hours. *)
Definition grid : list string :=
  ["09:00"; "10:00"; "11:00"; "12:00"; "13:00"; "14:00"; "15:00"; "16:00";
   "17:00"].

(** [e] is booked on the day of [d] at the label [s]. *)
Definition books (d : datetime) (s : string) (e : event) : Prop :=
  date_of (ev_date e) = date_of d /\ ev_time e = s.

#[global] Instance books_dec d s e : Decision (books d s e).
Proof. unfold books. apply _. Defined.

(** ** [chat] ([backend/main.py], l.15-27)

    The body of a request: [data.get("text", "")] and
    [data.get("session_state", {})] read the two keys, either of which may be
    missing.  The handler returns the reply and the state of the turn; an
    exception of the turn leaves the handler. *)
Record request : Type := mk_request {
  req_text : option string;
  req_session_state : option session_state
}.

Definition chat fuzzy_parse isoformat (now : datetime) (data : request)
    (cal : list event) : outcome :=
  let text := default "" (req_text data) in
  let session_state := default ∅ (req_session_state data) in
  process_user_message fuzzy_parse isoformat now text session_state cal.

(** ** Vocabulary of the properties *)

(** The store after a turn is the store before it, or that store with one
    event added at the end; a reply of cancellation leaves it as it was. *)
Definition append_only (cal : list event) (o : outcome) : Prop :=
  (store_of o = cal \/ exists e : event, store_of o = (cal ++ [e])%list)
  /\ match o with
     | Return RCancelled _ cal' => cal' = cal
     | _ => True
     end.

(** A text of exactly one or two decimal digits. *)
Definition digits12 (t : string) : bool :=
  match t with
  | String a EmptyString => Py.is_digit a
  | String a (String b EmptyString) => Py.is_digit a && Py.is_digit b
  | _ => false
  end.

Definition digit_chars : list ascii :=
  ["0"; "1"; "2"; "3"; "4"; "5"; "6"; "7"; "8"; "9"]%char.

Definition intents : list string :=
  ["book"; "check"; "cancel"; "confirm"; "reject"; "greeting"; "select_time";
   "unknown"].

(** An outcome that is not a listing of free slots. *)
Definition no_listing (o : outcome) : Prop :=
  match o with
  | Return (RFreeSlotsAskHour _ _) _ _ | Return (RFreeSlots _ _) _ _ => False
  | _ => True
  end.

(** What a turn with a reply [r] says about the listing of free slots. *)
Definition listing_from_check (intent : string) (date : option datetime)
    (cal : list event) (r : response) (st' : session_state)
    (cal' : list event) : Prop :=
  match r with
  | RFreeSlotsAskHour d slots =>
      intent = "check" /\ date = Some d
      /\ slots = get_free_slots cal d /\ slots <> []
      /\ st' = <["available_slots" := VSlots slots]>
                 (<["availability_date" := VIso d]> ∅)
      /\ cal' = cal
  | RFreeSlots _ _ => False
  | _ => True
  end.

(** A pending confirmation comes with its booking. *)
Definition pending_ok (st : session_state) : Prop :=
  truthy (st !! "pending_confirmation") = true ->
  exists b, st !! "pending_booking" = Some (VBooking b).

(** The offered slots are a list of labels of the grid. *)
Definition slots_ok (st : session_state) : Prop :=
  forall v, st !! "available_slots" = Some v ->
            exists l, v = VSlots l /\ Forall (fun s => s ∈ grid) l.

Definition consistent (st : session_state) : Prop := pending_ok st /\ slots_ok st.

Definition returns_consistent (o : outcome) : Prop :=
  match o with
  | Return _ st' _ => consistent st'
  | Raise _ _ _ => True
  end.

(** The turns of a conversation played one after the other; [None] when a
    turn raises. *)
Fixpoint run_turns fuzzy_parse isoformat (turns : list (datetime * string))
    (st : session_state) (cal : list event)
  : option (session_state * list event) :=
  match turns with
  | [] => Some (st, cal)
  | (now, text) :: turns' =>
      match process_user_message fuzzy_parse isoformat now text st cal with
      | Return _ st' cal' => run_turns fuzzy_parse isoformat turns' st' cal'
      | Raise _ _ _ => None
      end
  end.

(** *** Concrete inputs *)

Definition no_parse (_ : string) (_ : datetime) : option datetime := None.

Definition no_iso (_ : datetime) : string := "".

(** Wednesday 2024-04-24, 10:30:15. *)
Definition wednesday : datetime := mk_datetime 739000 10 30 15 0.
Definition tomorrow : datetime := mk_datetime 739001 10 30 15 0.
Definition next_monday : datetime := mk_datetime 739005 10 30 15 0.
Definition tomorrow_13 : datetime := mk_datetime 739001 13 0 15 0.

Definition meeting_13 : event := mk_event tomorrow_13 "13:00" 60 "Meeting".

(** After "am I free tomorrow" over an empty store. *)
Definition st_checked : session_state :=
  <["available_slots" := VSlots grid]> (<["availability_date" := VIso tomorrow]> ∅).

(** After "am I free tomorrow" when 13:00 is taken. *)
Definition st_checked_13_taken : session_state :=
  <["available_slots" :=
      VSlots ["09:00"; "10:00"; "11:00"; "12:00"; "14:00"; "15:00"; "16:00";
              "17:00"]]>
    (<["availability_date" := VIso tomorrow]> ∅).

Definition pending (st : session_state) (b : booking) : session_state :=
  <["pending_booking" := VBooking b]> (<["pending_confirmation" := VBool true]> st).

(** After a booking turn that named a taken time. *)
Definition st_time_taken : session_state :=
  <["waiting_for_time" := VBool true]>
    (<["selected_date" := VIso tomorrow]> (<["booking_flow" := VBool true]> ∅)).

(** The hours of the grid that are free on the date of [d]. *)
Definition free_hours (cal : list event) (d : datetime) : list Z :=
  List.filter (fun h => negb (bool_decide (slot_label h ∈ booked_on cal d)))
    (py_range 9 18).

(** The keys the controller sets to [True]. *)
Definition flag_keys : list string :=
  ["booking_flow"; "checking_availability"; "waiting_for_date";
   "waiting_for_time"; "pending_confirmation"].

(** The keys that hold the ISO text of a date. *)
Definition date_keys : list string := ["selected_date"; "availability_date"].

(** A booking dict as l.302-307 and l.390-395 build it: on the hour, the
    label of its hour, sixty minutes, titled "Meeting". *)
Definition booking_ok (b : booking) : Prop :=
  0 <= hour (bk_date b) <= 23 /\ minute (bk_date b) = 0
  /\ bk_time b = slot_label (hour (bk_date b))
  /\ bk_duration b = Some 60 /\ bk_title b = Some "Meeting".

(** What each key of the session state may hold. *)
Definition entry_ok (k : string) (v : value) : Prop :=
  (k ∈ flag_keys /\ v = VBool true)
  \/ (k ∈ date_keys /\ exists d, v = VIso d)
  \/ (k = "available_slots"
      /\ exists l, v = VSlots l /\ l <> [] /\ Forall (fun s => s ∈ grid) l)
  \/ (k = "pending_booking" /\ exists b, v = VBooking b /\ booking_ok b).

Definition well_formed (st : session_state) : Prop :=
  map_Forall entry_ok st
  /\ (is_Some (st !! "pending_confirmation") -> is_Some (st !! "pending_booking")).

(** An event as the controller appends it. *)
Definition event_ok (e : event) : Prop :=
  0 <= hour (ev_date e) <= 23 /\ minute (ev_date e) = 0
  /\ ev_time e = slot_label (hour (ev_date e))
  /\ ev_duration e = 60 /\ ev_title e = "Meeting".

(** A turn that returns gives a well-formed state, and the event it appends,
    if any, is as the controller builds events. *)
Definition step_ok (cal : list event) (o : outcome) : Prop :=
  match o with
  | Return _ st' cal' =>
      well_formed st'
      /\ (cal' = cal \/ exists e, cal' = (cal ++ [e])%list /\ event_ok e)
  | Raise _ _ _ => True
  end.

(** A turn that leaves the store as it was, or books a named free label
    directly (l.512-525, l.573-586) and empties the state. *)
Definition direct_or_kept (cal : list event) (o : outcome) : Prop :=
  match o with
  | Return r st' cal' =>
      cal' = cal
      \/ (st' = ∅
          /\ exists d t e,
               r = RPerfect d t /\ cal' = (cal ++ [e])%list
               /\ books d t e /\ ev_duration e = 60 /\ ev_title e = "Meeting"
               /\ t ∈ get_free_slots cal d /\ t ∉ get_free_slots cal' d)
  | Raise _ _ cal' => cal' = cal
  end.

(** The replies that no turn gives, and the one that only a state that is
    not well formed can get. *)
Definition live_reply (st : session_state) (o : outcome) : Prop :=
  match o with
  | Return (RBooked _ _) _ _ | Return RBadHour13 _ _
  | Return (RNotAvailableSlot _) _ _ => False
  | Return RBadHour15 _ _ => ~ well_formed st
  | _ => True
  end.

(** Every character of [s] is in the class [p]. *)
Fixpoint all_chars (p : ascii -> bool) (s : string) : bool :=
  match s with
  | EmptyString => true
  | String c s' => p c && all_chars p s'
  end.

(** What a pattern can match: [matched r w g] when [r] can consume the text
    [w] while its groups capture [g] (the latest first).  The anchors and
    [\b] consume nothing; what they ask of the context is left out. *)
Inductive matched : Re.regex -> string -> Re.groups -> Prop :=
| m_eps : matched Re.Eps "" []
| m_cls p c : p c = true -> matched (Re.Cls p) (String c "") []
| m_lit l : matched (Re.Lit l) l []
| m_cat r1 r2 w1 w2 g1 g2 :
    matched r1 w1 g1 -> matched r2 w2 g2 ->
    matched (Re.Cat r1 r2) (w1 +:+ w2) (g2 ++ g1)%list
| m_alt_l r1 r2 w g : matched r1 w g -> matched (Re.Alt r1 r2) w g
| m_alt_r r1 r2 w g : matched r2 w g -> matched (Re.Alt r1 r2) w g
| m_opt_none r : matched (Re.Opt r) "" []
| m_opt_some r w g : matched r w g -> matched (Re.Opt r) w g
| m_star p w : all_chars p w = true -> matched (Re.Star p) w []
| m_grp i r w g : matched r w g -> matched (Re.Grp i r) w ((i, w) :: g)
| m_bol : matched Re.Bol "" []
| m_eol : matched Re.Eol "" []
| m_wb : matched Re.Wb "" [].

(** The characters of the digits-and-colon part of a clock time. *)
Definition clock_char (c : ascii) : bool := Py.is_digit c || Ascii.eqb c ":".

(** l.231-236: the hour of a text without am or pm. *)
Definition hour_of (t : string) : option Z :=
  if Py.contains ":" t then hour_before_colon t else Py.int t.

(** l.207-208, l.213-214 and l.221-222, l.227-228: the hour of a text that
    ended in [ap]. *)
Definition adjust (ap : string) (h : Z) : Z :=
  if (ap =? "pm")%string then (if h =? 12 then h else h + 12)
  else if (ap =? "am")%string then (if h =? 12 then 0 else h)
  else h.


(** * Properties *)

(** ** [get_free_slots] *)

Lemma grid_labels : slot_label <$> py_range 9 18 = grid.
Proof. reflexivity. Qed.

Lemma elem_of_booked_on cal d s :
  s ∈ booked_on cal d <-> Exists (books d s) cal.
Proof.
  induction cal as [|e cal IH]; simpl.
  - rewrite Exists_nil. set_solver.
  - rewrite Exists_cons. unfold books at 1.
    destruct (Z.eqb_spec (date_of (ev_date e)) (date_of d)) as [Hd|Hd].
    + rewrite elem_of_cons, IH. intuition congruence.
    + rewrite IH. intuition congruence.
Qed.

Lemma booked_on_date cal d' d :
  date_of d' = date_of d -> booked_on cal d' = booked_on cal d.
Proof.
  intros Hd. induction cal as [|e cal IH]; simpl; [reflexivity|].
  rewrite Hd, IH. reflexivity.
Qed.

(** C5: for every store and every date, [get_free_slots] is the ascending grid
    09:00, ..., 17:00 from which exactly the labels booked on that date (the
    time of day of the event's date and of the query being ignored) are left
    out, in the order of the grid; the store is only read, so the same store
    and date give the same list. *)
Theorem get_free_slots_spec (cal : list event) (d : datetime) :
  get_free_slots cal d
    = List.filter (fun s => negb (bool_decide (Exists (books d s) cal))) grid
  /\ (forall s, s ∈ get_free_slots cal d
                <-> s ∈ grid /\ ~ Exists (books d s) cal)
  /\ (forall d', date_of d' = date_of d ->
                 get_free_slots cal d' = get_free_slots cal d).
Proof.
  assert (Hfilter : forall dd,
    get_free_slots cal dd
      = List.filter (fun s => negb (bool_decide (Exists (books dd s) cal))) grid).
  { intros dd. unfold get_free_slots. rewrite grid_labels.
    apply filter_ext. intros s. f_equal.
    apply bool_decide_ext, elem_of_booked_on. }
  split; [apply Hfilter|]. split.
  - intros s. rewrite Hfilter, list_elem_of_In, filter_In, <- list_elem_of_In.
    rewrite negb_true_iff, bool_decide_eq_false. reflexivity.
  - intros d' Hd. unfold get_free_slots.
    rewrite (booked_on_date cal d' d Hd). reflexivity.
Qed.

(** ** [extract_date_time] *)

Lemma dt_leb_add_days (n : Z) (d : datetime) : 0 < n -> dt_leb d (add_days n d) = true.
Proof.
  intros Hn. unfold dt_leb, dt_key, add_days; simpl.
  replace (ordinal d <? ordinal d + n) with true by (symmetry; apply Z.ltb_lt; lia).
  reflexivity.
Qed.

Lemma dt_ltb_add_days (n m : Z) (d : datetime) :
  n < m -> dt_ltb (add_days n d) (add_days m d) = true.
Proof.
  intros Hn. unfold dt_ltb, dt_leb, dt_key, add_days; simpl.
  replace (ordinal d + m <? ordinal d + n) with false by (symmetry; apply Z.ltb_ge; lia).
  replace (ordinal d + m =? ordinal d + n) with false by (symmetry; apply Z.eqb_neq; lia).
  reflexivity.
Qed.

Lemma this_friday_date fuzzy_parse (now : datetime) :
  (extract_date_time fuzzy_parse now "this Friday").1
  = Some (add_days (days_ahead 4 now) now).
Proof. cbv -[add_days days_ahead]. reflexivity. Qed.

(** C8: when the clock reads a Monday, the date extracted from "this Friday" is
    a Friday, is not before the reading, and is less than seven days after
    it (as a calendar date and as an instant). *)
Theorem this_friday_on_monday fuzzy_parse (now : datetime) :
  weekday now = 0 ->
  exists d,
    (extract_date_time fuzzy_parse now "this Friday").1 = Some d
    /\ weekday d = 4
    /\ date_of now <= date_of d < date_of now + 7
    /\ dt_leb now d = true
    /\ dt_ltb d (add_days 7 now) = true.
Proof.
  intros Hmon. exists (add_days 4 now).
  rewrite this_friday_date. unfold days_ahead. rewrite Hmon. simpl.
  split; [reflexivity|].
  split; [unfold weekday in *; simpl; Z.div_mod_to_equations; lia|].
  split; [unfold date_of; simpl; lia|].
  split; [apply dt_leb_add_days; lia | apply dt_ltb_add_days; lia].
Qed.

(** Day 738998 is Monday 2024-04-22. *)
Lemma this_friday_on_monday_witness :
  exists d,
    (extract_date_time no_parse (mk_datetime 738998 10 30 15 0) "this Friday").1
    = Some d
    /\ weekday d = 4
    /\ 738998 <= date_of d < 738998 + 7
    /\ dt_leb (mk_datetime 738998 10 30 15 0) d = true
    /\ dt_ltb d (add_days 7 (mk_datetime 738998 10 30 15 0)) = true.
Proof.
  apply (this_friday_on_monday no_parse (mk_datetime 738998 10 30 15 0)).
  reflexivity.
Defined.

(** ** The calendar store *)

Create HintDb store discriminated.

Ltac store_cases :=
  repeat case_match; simplify_eq; unfold append_only; simpl; split; eauto.

Lemma confirm_pending_store st cal : append_only cal (confirm_pending st cal).
Proof. unfold confirm_pending. store_cases. Qed.

Lemma select_after_availability_store text st cal :
  append_only cal (select_after_availability text st cal).
Proof. unfold select_after_availability. store_cases. Qed.

Lemma check_availability_flow_store date st cal :
  append_only cal (check_availability_flow date st cal).
Proof. unfold check_availability_flow. store_cases. Qed.

Lemma time_selection_store iso now text st cal :
  append_only cal (time_selection iso now text st cal).
Proof.
  unfold time_selection, select_from_availability, select_from_range.
  destruct (truthy (st !! "availability_date") && truthy (st !! "available_slots"));
    destruct (truthy (st !! "waiting_for_time") && truthy (st !! "available_slots"));
    simpl; unfold mbind, option_bind; store_cases.
Qed.

Lemma confirm_intent_store st cal : append_only cal (confirm_intent st cal).
Proof. unfold confirm_intent. store_cases. Qed.

Lemma availability_check_store date st cal :
  append_only cal (availability_check date st cal).
Proof. unfold availability_check. store_cases. Qed.

Lemma book_or_offer_store d time_str free st cal :
  append_only cal (book_or_offer d time_str free st cal).
Proof. unfold book_or_offer, book_directly. store_cases. Qed.

Lemma booking_intent_store text date time_str st cal :
  append_only cal (booking_intent text date time_str st cal).
Proof.
  unfold booking_intent. destruct date as [d|]; [|store_cases].
  destruct (Re.search _ _); [|apply book_or_offer_store].
  unfold book_in_range. store_cases.
Qed.

Lemma flow_management_store date time_str st cal :
  append_only cal (flow_management date time_str st cal).
Proof.
  pose proof book_or_offer_store as Hb.
  unfold flow_management, flow_fallback.
  repeat case_match; subst; try apply Hb; unfold append_only; simpl; split; eauto.
Qed.

#[local] Hint Resolve confirm_pending_store select_after_availability_store
  check_availability_flow_store time_selection_store confirm_intent_store
  availability_check_store booking_intent_store flow_management_store : store.

(** C7: over one turn the calendar store only grows, by at most one event put
    at its end, whether the turn returns or raises; no event already in the
    store is removed or changed, and a turn that answers with the cancellation
    of a pending booking leaves the store as it was. *)
Theorem store_append_only fuzzy_parse isoformat now text st cal :
  append_only cal (process_user_message fuzzy_parse isoformat now text st cal).
Proof.
  unfold process_user_message.
  destruct (extract_date_time fuzzy_parse now text) as [date time_str].
  generalize (extract_intent fuzzy_parse now text st). intros intent.
  repeat case_match; auto with store; unfold append_only; simpl; auto.
Qed.

(** ** Turns that are a number *)

Lemma is_digit_cases (c : ascii) : Py.is_digit c = true -> c ∈ digit_chars.
Proof.
  intros H. unfold digit_chars.
  destruct c as [[] [] [] [] [] [] [] []]; vm_compute in H; try discriminate H;
    set_solver.
Qed.

Ltac each_digit H :=
  apply is_digit_cases in H; unfold digit_chars in H;
  repeat (apply elem_of_cons in H as [->|H]); [..|by apply elem_of_nil in H].

Lemma digits12_number (t : string) :
  digits12 t = true ->
  Py.strip (Py.lower t) = t
  /\ is_number t = true
  /\ exists h, Py.int (Py.strip t) = Some h /\ 0 <= h <= 99.
Proof.
  destruct t as [|a [|b [|]]]; simpl; try discriminate.
  - intros Ha. each_digit Ha; vm_compute; (split; [reflexivity|]);
      (split; [reflexivity|]); eexists; (split; [reflexivity|]); split; discriminate.
  - intros Hab. apply andb_true_iff in Hab as [Ha Hb].
    each_digit Ha; each_digit Hb; vm_compute; (split; [reflexivity|]);
      (split; [reflexivity|]); eexists; (split; [reflexivity|]); split; discriminate.
Qed.

Lemma truthy_nonempty (st : session_state) (k : string) :
  truthy (st !! k) = true -> nonempty st = true.
Proof.
  intros H. unfold nonempty. case_bool_decide as He; [|reflexivity].
  subst st. rewrite lookup_empty in H. discriminate H.
Qed.

Lemma intent_of_number_waiting fuzzy_parse now text (st : session_state) :
  truthy (st !! "waiting_for_time") = true ->
  is_number (Py.strip (Py.lower text)) = true ->
  extract_intent fuzzy_parse now text st = "select_time".
Proof.
  intros Hw Hn. unfold extract_intent.
  rewrite (truthy_nonempty _ _ Hw), Hw, Hn. reflexivity.
Qed.

(** C10: in a state where [waiting_for_time] is set and neither
    [availability_date] nor [available_slots] is, a turn that is exactly a
    one- or two-digit number is classified [select_time] and is answered with
    the one-line help menu and an empty session state: [booking_flow],
    [selected_date] and [waiting_for_time] are dropped, and the store is left
    as it was. *)
Theorem number_while_waiting_resets fuzzy_parse isoformat now text
    (st : session_state) cal :
  truthy (st !! "waiting_for_time") = true ->
  truthy (st !! "availability_date") = false ->
  truthy (st !! "available_slots") = false ->
  digits12 text = true ->
  extract_intent fuzzy_parse now text st = "select_time"
  /\ process_user_message fuzzy_parse isoformat now text st cal
     = Return RHelpOneLine ∅ cal.
Proof.
  intros Hw Ha Hs Hd.
  destruct (digits12_number text Hd) as (Hstrip & Hnum & _).
  assert (Hi : extract_intent fuzzy_parse now text st = "select_time").
  { apply intent_of_number_waiting; [exact Hw|]. rewrite Hstrip. exact Hnum. }
  split; [exact Hi|].
  unfold process_user_message. rewrite Hi.
  destruct (extract_date_time fuzzy_parse now text) as [date time_str].
  rewrite Ha.
  replace (bool_decide ("select_time" ∈ ["confirm"; "yes"; "ok"])) with false
    by reflexivity.
  rewrite andb_false_r. simpl.
  unfold time_selection, select_from_availability, select_from_range.
  rewrite Ha, Hs, !andb_false_r. reflexivity.
Qed.

(** ** Intents and the availability listing *)

Lemma intent_values fuzzy_parse now text (st : session_state) :
  extract_intent fuzzy_parse now text st ∈ intents.
Proof.
  unfold extract_intent, intents. repeat case_match; set_solver.
Qed.

(** While an availability check waits for its date, a text with a date is
    never left to the keyword rules. *)
Lemma intent_when_checking fuzzy_parse now text (st : session_state) :
  truthy (st !! "checking_availability") = true ->
  is_Some (extract_date_time fuzzy_parse now text).1 ->
  extract_intent fuzzy_parse now text st ∈ ["select_time"; "book"; "check"].
Proof.
  intros Hc Hd. unfold extract_intent.
  rewrite (truthy_nonempty _ _ Hc), Hc, (bool_decide_eq_true_2 _ Hd). simpl.
  repeat case_match; set_solver.
Qed.

Ltac listing_cases := repeat case_match; simplify_eq; simpl; auto.

Lemma confirm_pending_no_listing st cal : no_listing (confirm_pending st cal).
Proof. unfold confirm_pending. listing_cases. Qed.

Lemma select_after_availability_no_listing text st cal :
  no_listing (select_after_availability text st cal).
Proof. unfold select_after_availability. listing_cases. Qed.

Lemma time_selection_no_listing iso now text st cal :
  no_listing (time_selection iso now text st cal).
Proof.
  unfold time_selection, select_from_availability, select_from_range.
  destruct (truthy (st !! "availability_date") && truthy (st !! "available_slots"));
    destruct (truthy (st !! "waiting_for_time") && truthy (st !! "available_slots"));
    simpl; unfold mbind, option_bind; listing_cases.
Qed.

Lemma confirm_intent_no_listing st cal : no_listing (confirm_intent st cal).
Proof. unfold confirm_intent. listing_cases. Qed.

Lemma book_or_offer_no_listing d time_str free st cal :
  no_listing (book_or_offer d time_str free st cal).
Proof. unfold book_or_offer, book_directly. listing_cases. Qed.

Lemma booking_intent_no_listing text date time_str st cal :
  no_listing (booking_intent text date time_str st cal).
Proof.
  unfold booking_intent. destruct date as [d|]; [|exact I].
  destruct (Re.search _ _); [|apply book_or_offer_no_listing].
  unfold book_in_range. listing_cases.
Qed.

Lemma flow_fallback_no_listing date time_str st cal :
  no_listing (flow_fallback date time_str st cal).
Proof.
  pose proof book_or_offer_no_listing as Hb.
  unfold flow_fallback. repeat case_match; simplify_eq; try apply Hb; exact I.
Qed.

Lemma no_listing_from_check o intent date cal r st' cal' :
  no_listing o -> o = Return r st' cal' ->
  listing_from_check intent date cal r st' cal'.
Proof. intros Hn ->. destruct r; simpl in *; done. Qed.

(** A turn classified ["check"] is decided by l.445-465. *)
Lemma check_branch_taken fuzzy_parse isoformat now text (st : session_state)
    (cal : list event) :
  extract_intent fuzzy_parse now text st = "check" ->
  process_user_message fuzzy_parse isoformat now text st cal
  = availability_check (extract_date_time fuzzy_parse now text).1 st cal.
Proof.
  intros Hi. unfold process_user_message. rewrite Hi.
  destruct (extract_date_time fuzzy_parse now text) as [date time_str].
  replace (bool_decide ("check" ∈ ["confirm"; "yes"; "ok"])) with false
    by reflexivity.
  rewrite !andb_false_r. reflexivity.
Qed.

(** C9: the classifier answers one of the eight intents and never
    ["check_availability"], so the test of l.313 is false on every turn; a
    turn classified ["check"] whose text holds a date with a free slot lists
    the free slots and returns a state that holds exactly [availability_date]
    and [available_slots]; conversely a turn that lists the free slots of a
    date was classified ["check"] and went that way; the listing of l.555,
    which stores neither key, is never returned. *)
Theorem check_is_the_only_listing fuzzy_parse isoformat now text
    (st : session_state) (cal : list event) :
  extract_intent fuzzy_parse now text st ∈ intents
  /\ (extract_intent fuzzy_parse now text st =? "check_availability")%string
     = false
  /\ (forall d,
        extract_intent fuzzy_parse now text st = "check" ->
        (extract_date_time fuzzy_parse now text).1 = Some d ->
        get_free_slots cal d <> [] ->
        process_user_message fuzzy_parse isoformat now text st cal
        = Return (RFreeSlotsAskHour d (get_free_slots cal d))
            (<["available_slots" := VSlots (get_free_slots cal d)]>
               (<["availability_date" := VIso d]> ∅))
            cal)
  /\ forall r st' cal',
       process_user_message fuzzy_parse isoformat now text st cal
       = Return r st' cal' ->
       listing_from_check (extract_intent fuzzy_parse now text st)
         (extract_date_time fuzzy_parse now text).1 cal r st' cal'.
Proof.
  pose proof (intent_values fuzzy_parse now text st) as Hin.
  assert (Hne : (extract_intent fuzzy_parse now text st
                 =? "check_availability")%string = false).
  { apply String.eqb_neq. intros E. rewrite E in Hin.
    apply list_elem_of_In in Hin. simpl in Hin. intuition discriminate. }
  split; [exact Hin|]. split; [exact Hne|]. split.
  { intros d Hi Hd Hfree. rewrite (check_branch_taken _ _ _ _ _ _ Hi), Hd.
    unfold availability_check.
    destruct (get_free_slots cal d); [congruence|reflexivity]. }
  intros r st' cal'. unfold process_user_message.
  pose proof (intent_when_checking fuzzy_parse now text st) as Hchk.
  destruct (extract_date_time fuzzy_parse now text) as [date time_str].
  simpl in Hchk |- *. rewrite Hne. clear Hin Hne.
  generalize dependent (extract_intent fuzzy_parse now text st).
  intros intent Hchk.
  destruct (truthy (st !! "pending_confirmation")
            && bool_decide (intent ∈ ["confirm"; "yes"; "ok"]));
    [apply no_listing_from_check, confirm_pending_no_listing|].
  destruct (truthy (st !! "availability_date") && (intent =? "select_time")%string);
    [apply no_listing_from_check, select_after_availability_no_listing|].
  destruct (intent =? "greeting")%string; [intros [= <- <- <-]; exact I|].
  destruct (String.eqb_spec intent "select_time") as [Esel|Esel];
    [apply no_listing_from_check, time_selection_no_listing|].
  destruct ((intent =? "confirm")%string && truthy (st !! "pending_confirmation")
            && truthy (st !! "pending_booking"));
    [apply no_listing_from_check, confirm_intent_no_listing|].
  destruct ((intent =? "cancel")%string && truthy (st !! "pending_confirmation"));
    [intros [= <- <- <-]; exact I|].
  destruct (String.eqb_spec intent "check") as [Echk|Echk].
  { unfold availability_check. destruct date as [d|]; [|intros [= <- <- <-]; exact I].
    destruct (get_free_slots cal d) as [|s l] eqn:Efree; intros [= <- <- <-]; simpl;
      [exact I|]. rewrite Efree. repeat split; auto. }
  destruct (String.eqb_spec intent "book") as [Ebook|Ebook];
    [apply no_listing_from_check, booking_intent_no_listing|].
  unfold flow_management. destruct date as [d|];
    [|apply no_listing_from_check, flow_fallback_no_listing].
  destruct (truthy (st !! "checking_availability")) eqn:Hca;
    [|apply no_listing_from_check, flow_fallback_no_listing].
  exfalso. specialize (Hchk eq_refl (mk_is_Some _ _ eq_refl)).
  apply list_elem_of_In in Hchk. simpl in Hchk. intuition congruence.
Qed.

(** ** Labels of the grid *)

Lemma length_append (x y : string) :
  String.length (x +:+ y) = (String.length x + String.length y)%nat.
Proof. induction x as [|a x IH]; simpl; [reflexivity|]. rewrite IH. reflexivity. Qed.

Lemma append_inj_r (x y z : string) : x +:+ z = y +:+ z -> x = y.
Proof.
  revert y. induction x as [|a x IH]; intros [|b y] H.
  - reflexivity.
  - apply (f_equal String.length) in H. rewrite !length_append in H.
    simpl in H. lia.
  - apply (f_equal String.length) in H. rewrite !length_append in H.
    simpl in H. lia.
  - injection H as -> H. f_equal. apply IH, H.
Qed.

Lemma string_of_Z_inv (h : Z) (s : string) :
  NilZero.string_of_int (Z.to_int h) = s ->
  exists d, NilZero.int_of_string s = Some d /\ h = Z.of_int d.
Proof.
  intros <-. exists (Z.to_int h). split; [|symmetry; apply DecimalZ.of_to].
  apply NilZero.isi; destruct h; simpl; try discriminate;
    intros [= H]; exact (DecimalPos.Unsigned.to_uint_nonnil _ H).
Qed.

Lemma fmt_02d_inv (h : Z) (s : string) :
  Py.fmt_02d h = s ->
  exists d, h = Z.of_int d
            /\ (NilZero.int_of_string s = Some d
                \/ exists s', s = String "0" s' /\ NilZero.int_of_string s' = Some d).
Proof.
  unfold Py.fmt_02d. intros H.
  destruct (string_of_Z_inv h _ eq_refl) as (d & Hd & Hh).
  exists d. split; [exact Hh|].
  destruct (_ <? _)%nat; [right; eexists; split; [symmetry; exact H|exact Hd]|].
  left. rewrite <- H. exact Hd.
Qed.

(** Only the hours 9 to 17 are printed as a label of the grid. *)
Lemma slot_label_grid (h : Z) : slot_label h ∈ grid -> 9 <= h <= 17.
Proof.
  unfold grid, slot_label. intros H.
  repeat (apply elem_of_cons in H as [H|H]); [..|by apply elem_of_nil in H];
    apply (append_inj_r _ (String _ (String _ EmptyString)) ":00") in H;
    apply fmt_02d_inv in H as (d & -> & [H|(s' & [= <-] & H)]);
    vm_compute in H; injection H as <-; vm_compute; split; discriminate.
Qed.

Lemma slot_label_grid_replace (h : Z) (d : datetime) :
  slot_label h ∈ grid -> is_Some (replace_hm h 0 d).
Proof.
  intros H%slot_label_grid. unfold replace_hm.
  replace (0 <=? h) with true by (symmetry; apply Z.leb_le; lia).
  replace (h <=? 23) with true by (symmetry; apply Z.leb_le; lia).
  simpl. eauto.
Qed.

Lemma get_free_slots_grid (cal : list event) (d : datetime) :
  Forall (fun s => s ∈ grid) (get_free_slots cal d).
Proof.
  unfold get_free_slots. rewrite grid_labels.
  apply Forall_forall. intros s Hs.
  apply list_elem_of_In, filter_In in Hs as [Hs _]. apply list_elem_of_In, Hs.
Qed.

Lemma slots_in_range_sub (P : string -> Prop) a b (l l' : list string) :
  slots_in_range a b l = Some l' -> Forall P l -> Forall P l'.
Proof.
  revert l'. induction l as [|s l IH]; simpl; intros l' H Hl.
  - injection H as <-. constructor.
  - destruct (Py.int _); simpl in H; [|discriminate].
    destruct (slots_in_range a b l) as [r|]; simpl in H; [|discriminate].
    injection H as <-. inversion Hl; subst.
    destruct (_ && _); [constructor|]; auto.
Qed.

(** ** Pending confirmations *)

Lemma consistent_empty : consistent ∅.
Proof.
  split; [intros H | intros v H]; rewrite lookup_empty in H; discriminate H.
Qed.

Lemma consistent_flag (k : string) (v : value) (st : session_state) :
  k <> "pending_confirmation" -> k <> "pending_booking" ->
  k <> "available_slots" ->
  consistent st -> consistent (<[k := v]> st).
Proof.
  intros H1 H2 H3 [Hp Hs]. split.
  - unfold pending_ok. rewrite !lookup_insert_ne by done. exact Hp.
  - unfold slots_ok. rewrite lookup_insert_ne by done. exact Hs.
Qed.

Lemma consistent_slots (l : list string) (st : session_state) :
  Forall (fun s => s ∈ grid) l ->
  consistent st -> consistent (<["available_slots" := VSlots l]> st).
Proof.
  intros Hl [Hp Hs]. split.
  - unfold pending_ok. rewrite !lookup_insert_ne by done. exact Hp.
  - intros v. rewrite lookup_insert_eq. intros [= <-]. eauto.
Qed.

Lemma consistent_pending (b : booking) (st : session_state) :
  consistent st ->
  consistent (<["pending_booking" := VBooking b]>
                (<["pending_confirmation" := VBool true]> st)).
Proof.
  intros [Hp Hs]. split.
  - intros _. rewrite lookup_insert_eq. eauto.
  - unfold slots_ok. rewrite !lookup_insert_ne by done. exact Hs.
Qed.

Create HintDb consistent discriminated.

#[local] Hint Resolve consistent_empty consistent_pending get_free_slots_grid
  : consistent.
#[local] Hint Extern 1 (consistent (<[_ := VBool _]> _)) =>
  apply consistent_flag; [done | done | done |] : consistent.
#[local] Hint Extern 1 (consistent (<[_ := VIso _]> _)) =>
  apply consistent_flag; [done | done | done |] : consistent.
#[local] Hint Extern 1 (consistent (<["available_slots" := VSlots _]> _)) =>
  apply consistent_slots : consistent.

Ltac consistent_cases :=
  repeat case_match; simplify_eq; simpl; auto 6 with consistent.

Lemma confirm_pending_consistent st cal :
  returns_consistent (confirm_pending st cal).
Proof. unfold confirm_pending. consistent_cases. Qed.

Lemma select_after_availability_consistent text st cal :
  consistent st -> returns_consistent (select_after_availability text st cal).
Proof. intros H. unfold select_after_availability. consistent_cases. Qed.

Lemma check_availability_flow_consistent date st cal :
  consistent st -> returns_consistent (check_availability_flow date st cal).
Proof. intros H. unfold check_availability_flow. consistent_cases. Qed.

Lemma select_from_availability_consistent iso text st cal o :
  consistent st ->
  select_from_availability iso text st cal = Some o -> returns_consistent o.
Proof.
  intros H. unfold select_from_availability.
  destruct (_ && _); simpl; unfold mbind, option_bind; [|discriminate].
  repeat case_match; intros [= <-]; simpl; auto with consistent.
Qed.

(** With offered slots from the grid, the hour of a chosen label is a valid
    hour, so the [except] of l.405 is not entered after l.389. *)
Lemma select_from_range_consistent iso now text st cal o :
  consistent st ->
  select_from_range iso now text st cal = Some o -> returns_consistent o.
Proof.
  intros H. unfold select_from_range.
  destruct (_ && _); [|discriminate].
  destruct (Py.int _) as [h|]; [|intros [= <-]; exact H].
  destruct (st !! "available_slots") as [slots|] eqn:Es; [|intros [= <-]; exact H].
  destruct (proj2 H _ Es) as (l & -> & Hl). simpl.
  case_bool_decide as Hin; [|intros [= <-]; exact H].
  assert (Hg : slot_label h ∈ grid) by (rewrite Forall_forall in Hl; auto).
  destruct (date_for_selection now st) as [d|]; [|intros [= <-]; exact H].
  destruct (slot_label_grid_replace h d Hg) as [d' ->].
  intros [= <-]. simpl. auto with consistent.
Qed.

Lemma time_selection_consistent iso now text st cal :
  consistent st -> returns_consistent (time_selection iso now text st cal).
Proof.
  intros H. unfold time_selection.
  destruct (select_from_availability _ _ _ _) eqn:E1;
    [eapply select_from_availability_consistent; eauto|].
  destruct (select_from_range _ _ _ _ _) eqn:E2;
    [eapply select_from_range_consistent; eauto|].
  simpl. auto with consistent.
Qed.

Lemma confirm_intent_consistent st cal :
  returns_consistent (confirm_intent st cal).
Proof. unfold confirm_intent. consistent_cases. Qed.

Lemma availability_check_consistent date st cal :
  consistent st -> returns_consistent (availability_check date st cal).
Proof.
  intros H. unfold availability_check. destruct date as [d|]; simpl;
    [|auto with consistent].
  destruct (get_free_slots cal d) eqn:E; simpl; [auto with consistent|].
  rewrite <- E. auto 6 with consistent.
Qed.

Lemma book_or_offer_consistent d time_str cal' st cal :
  consistent st ->
  returns_consistent (book_or_offer d time_str (get_free_slots cal' d) st cal).
Proof.
  intros H. unfold book_or_offer, book_directly.
  destruct (str_truthy time_str); [consistent_cases|].
  destruct (get_free_slots cal' d) eqn:E; simpl; [auto with consistent|].
  rewrite <- E. auto 6 with consistent.
Qed.

Lemma book_in_range_consistent d g cal' st cal :
  consistent st ->
  returns_consistent (book_in_range d g (get_free_slots cal' d) st cal).
Proof.
  intros H. unfold book_in_range.
  destruct (parse_time_to_hour _); [|exact I].
  destruct (parse_time_to_hour _); [|exact I].
  destruct (slots_in_range _ _ _) as [l|] eqn:E; [|exact I].
  apply (slots_in_range_sub (fun s => s ∈ grid)) in E; [|apply get_free_slots_grid].
  destruct l; simpl; auto 6 with consistent.
Qed.

Lemma booking_intent_consistent text date time_str st cal :
  consistent st -> returns_consistent (booking_intent text date time_str st cal).
Proof.
  intros H. unfold booking_intent. destruct date as [d|]; simpl;
    [|auto 6 with consistent].
  destruct (Re.search _ _).
  - apply book_in_range_consistent. auto 6 with consistent.
  - apply book_or_offer_consistent. auto 6 with consistent.
Qed.

Lemma flow_fallback_consistent date time_str st cal :
  consistent st -> returns_consistent (flow_fallback date time_str st cal).
Proof.
  intros H. unfold flow_fallback.
  destruct (_ && _).
  - destruct date as [d|]; simpl; [|auto 6 with consistent].
    apply book_or_offer_consistent. auto 6 with consistent.
  - consistent_cases.
Qed.

Lemma flow_management_consistent date time_str st cal :
  consistent st -> returns_consistent (flow_management date time_str st cal).
Proof.
  intros H. pose proof (flow_fallback_consistent date time_str st cal H).
  unfold flow_management. consistent_cases.
Qed.

#[local] Hint Resolve confirm_pending_consistent
  select_after_availability_consistent check_availability_flow_consistent
  time_selection_consistent confirm_intent_consistent
  availability_check_consistent booking_intent_consistent
  flow_management_consistent : consistent.

(** One turn keeps the state consistent. *)
Lemma turn_consistent fuzzy_parse isoformat now text st cal :
  consistent st ->
  returns_consistent (process_user_message fuzzy_parse isoformat now text st cal).
Proof.
  intros H. unfold process_user_message.
  destruct (extract_date_time fuzzy_parse now text) as [date time_str].
  generalize (extract_intent fuzzy_parse now text st). intros intent.
  repeat case_match; simpl; auto with consistent.
Qed.

Lemma reachable_consistent fuzzy_parse isoformat st cal :
  reachable fuzzy_parse isoformat st cal -> consistent st.
Proof.
  induction 1 as [cal|st cal now text r st' cal' _ IH Hturn].
  - apply consistent_empty.
  - pose proof (turn_consistent fuzzy_parse isoformat now text st cal IH) as Hc.
    unfold turn in Hturn. rewrite Hturn in Hc. exact Hc.
Qed.

(** C6: in every session state that a conversation reaches from the empty
    state through turns that return, a set [pending_confirmation] comes with
    a [pending_booking] (a booking dict with its date and time). *)
Theorem pending_confirmation_has_booking fuzzy_parse isoformat
    (st : session_state) (cal : list event) :
  reachable fuzzy_parse isoformat st cal ->
  truthy (st !! "pending_confirmation") = true ->
  is_Some (st !! "pending_booking")
  /\ exists b, st !! "pending_booking" = Some (VBooking b).
Proof.
  intros Hr Hp. destruct (reachable_consistent _ _ _ _ Hr) as [Hpend _].
  destruct (Hpend Hp) as [b Hb]. split; [rewrite Hb|]; eauto.
Qed.

(** ** Conversations on concrete inputs *)

Lemma run_turns_reachable fuzzy_parse isoformat turns st cal st' cal' :
  reachable fuzzy_parse isoformat st cal ->
  run_turns fuzzy_parse isoformat turns st cal = Some (st', cal') ->
  reachable fuzzy_parse isoformat st' cal'.
Proof.
  revert st cal. induction turns as [|[now text] turns IH]; simpl; intros st cal Hr H.
  - injection H as <- <-. exact Hr.
  - destruct (process_user_message _ _ now text st cal) as [r st1 cal1|] eqn:E;
      [|discriminate].
    eapply IH; [|exact H]. eapply reach_turn; [exact Hr|exact E].
Qed.

Lemma st_checked_reachable fuzzy_parse isoformat :
  reachable fuzzy_parse isoformat st_checked [].
Proof.
  apply (run_turns_reachable _ _ [(wednesday, "am I free tomorrow")] ∅ []);
    [apply reach_fresh|]. vm_compute. reflexivity.
Qed.

(** C1 fails on the code: after "am I free tomorrow" the turn "99" reaches
    l.303 with [hour = 99]; [replace(hour=99)] raises [ValueError] outside the
    [try] of l.291-299, after l.301 has set [pending_confirmation]. *)
Theorem hour_99_raises fuzzy_parse isoformat :
  process_user_message fuzzy_parse isoformat wednesday "am I free tomorrow" ∅ []
  = Return (RFreeSlotsAskHour tomorrow grid) st_checked []
  /\ reachable fuzzy_parse isoformat st_checked []
  /\ process_user_message fuzzy_parse isoformat wednesday "99" st_checked []
     = Raise ValueError (<["pending_confirmation" := VBool true]> st_checked) [].
Proof.
  split; [vm_compute; reflexivity|].
  split; [apply st_checked_reachable|]. vm_compute. reflexivity.
Qed.

(** C3 fails on the code: with [availability_date] and [available_slots] set,
    l.285 takes every [select_time] turn before l.344 is reached, so an hour
    whose label is not offered is not declined: a pending booking for it is
    created. *)
Theorem hour_not_offered_is_accepted fuzzy_parse isoformat :
  run_turns fuzzy_parse isoformat
    [(wednesday, "book a meeting tomorrow at 1pm"); (wednesday, "am I free tomorrow")]
    ∅ []
  = Some (st_checked_13_taken, [meeting_13])
  /\ process_user_message fuzzy_parse isoformat wednesday "13"
       st_checked_13_taken [meeting_13]
     = Return (RSelected "13:00" tomorrow)
         (pending st_checked_13_taken
            (mk_booking tomorrow_13 "13:00" (Some 60) (Some "Meeting")))
         [meeting_13].
Proof. split; vm_compute; reflexivity. Qed.

(** C2 fails on the code: 13:00 is booked, left out of the free slots, chosen
    all the same after an availability check, and the confirmation of l.258
    appends a second event for the same date and time. *)
Theorem confirmed_booking_is_doubled fuzzy_parse isoformat :
  get_free_slots [meeting_13] tomorrow
  = ["09:00"; "10:00"; "11:00"; "12:00"; "14:00"; "15:00"; "16:00"; "17:00"]
  /\ run_turns fuzzy_parse isoformat
       [(wednesday, "book a meeting tomorrow at 1pm");
        (wednesday, "am I free tomorrow");
        (wednesday, "13");
        (wednesday, "yes")]
       ∅ []
     = Some (∅, [meeting_13; meeting_13]).
Proof. split; vm_compute; reflexivity. Qed.

(** C4 fails on the code: "3" is read as 3 o'clock and "5 pm" as 17, so the
    range is 3 to 17 and every free slot of next Monday is offered. *)
Theorem range_3_5_pm_offers_all_day fuzzy_parse isoformat :
  parse_time_to_hour "3" = Some 3
  /\ parse_time_to_hour "5 pm" = Some 17
  /\ process_user_message fuzzy_parse isoformat wednesday
       "book a meeting between 3-5 PM next week" ∅ []
     = Return (RRange next_monday "3" "5 pm" grid)
         (<["available_slots" := VSlots grid]>
            (<["waiting_for_time" := VBool true]>
               (<["selected_date" := VIso next_monday]>
                  (<["booking_flow" := VBool true]> ∅))))
         [].
Proof. repeat split; vm_compute; reflexivity. Qed.

Lemma st_time_taken_reachable fuzzy_parse isoformat :
  reachable fuzzy_parse isoformat st_time_taken [meeting_13].
Proof.
  apply (run_turns_reachable _ _
           [(wednesday, "book a meeting tomorrow at 1pm");
            (wednesday, "book a meeting tomorrow at 1pm")] ∅ []);
    [apply reach_fresh|]. vm_compute. reflexivity.
Qed.

Lemma number_while_waiting_resets_witness :
  extract_intent no_parse wednesday "15" st_time_taken = "select_time"
  /\ process_user_message no_parse no_iso wednesday "15" st_time_taken [meeting_13]
     = Return RHelpOneLine ∅ [meeting_13].
Proof.
  apply (number_while_waiting_resets no_parse no_iso wednesday "15"
           st_time_taken [meeting_13]); reflexivity.
Defined.

Lemma pending_confirmation_has_booking_witness :
  is_Some (pending st_checked
             (mk_booking tomorrow_13 "13:00" (Some 60) (Some "Meeting"))
           !! "pending_booking")
  /\ exists b,
       pending st_checked
         (mk_booking tomorrow_13 "13:00" (Some 60) (Some "Meeting"))
       !! "pending_booking" = Some (VBooking b).
Proof.
  apply (pending_confirmation_has_booking no_parse no_iso _ []).
  - apply (run_turns_reachable _ _
             [(wednesday, "am I free tomorrow"); (wednesday, "13")] ∅ []);
      [apply reach_fresh|]. vm_compute. reflexivity.
  - reflexivity.
Defined.

Lemma check_is_the_only_listing_witness :
  process_user_message no_parse no_iso wednesday "am I free tomorrow" ∅ []
  = Return (RFreeSlotsAskHour tomorrow (get_free_slots [] tomorrow))
      (<["available_slots" := VSlots (get_free_slots [] tomorrow)]>
         (<["availability_date" := VIso tomorrow]> ∅))
      [].
Proof.
  apply (proj1 (proj2 (proj2
           (check_is_the_only_listing no_parse no_iso wednesday
              "am I free tomorrow" ∅ [])))).
  - reflexivity.
  - reflexivity.
  - vm_compute. discriminate.
Defined.

(** The reply of l.364, which declines an hour that is not offered, is never
    returned: whenever the guard of l.346 holds, l.285 has already taken the
    turn. *)
Lemma decline_of_l364_unreachable fuzzy_parse isoformat now text st cal t st' cal' :
  process_user_message fuzzy_parse isoformat now text st cal
  <> Return (RNotAvailableSlot t) st' cal'.
Proof.
  unfold process_user_message.
  destruct (extract_date_time fuzzy_parse now text) as [date time_str].
  generalize (extract_intent fuzzy_parse now text st). intros intent.
  unfold confirm_pending, select_after_availability, check_availability_flow,
    time_selection, select_from_availability, select_from_range, confirm_intent,
    availability_check, booking_intent, book_in_range, flow_management,
    flow_fallback, book_or_offer, book_directly.
  destruct (truthy (st !! "availability_date")) eqn:Ha;
    destruct (intent =? "select_time")%string eqn:Hi; simpl;
    repeat case_match; simplify_eq; try discriminate.
Qed.

(** ** A number typed after an availability check *)

Lemma intent_of_number_after_check fuzzy_parse now text (st : session_state) :
  truthy (st !! "availability_date") = true ->
  truthy (st !! "available_slots") = true ->
  is_number (Py.strip (Py.lower text)) = true ->
  extract_intent fuzzy_parse now text st = "select_time".
Proof.
  intros Ha Hs Hn. unfold extract_intent.
  rewrite (truthy_nonempty _ _ Ha), Ha, Hs, Hn.
  destruct (truthy (st !! "waiting_for_time")); reflexivity.
Qed.

(** Whatever slots were offered, l.285-311 decides alone: the hour is taken
    when [replace] accepts it, and [ValueError] leaves the function when it
    does not. *)
Lemma number_after_check fuzzy_parse isoformat now text (st : session_state)
    cal d h :
  st !! "availability_date" = Some (VIso d) ->
  truthy (st !! "available_slots") = true ->
  truthy (st !! "pending_confirmation") = false ->
  digits12 text = true ->
  Py.int (Py.strip text) = Some h ->
  process_user_message fuzzy_parse isoformat now text st cal
  = match replace_hm h 0 d with
    | Some d' =>
        Return (RSelected (slot_label h) d)
          (pending st (mk_booking d' (slot_label h) (Some 60) (Some "Meeting")))
          cal
    | None => Raise ValueError (<["pending_confirmation" := VBool true]> st) cal
    end.
Proof.
  intros Ha Hs Hp Hd Hh.
  destruct (digits12_number text Hd) as (Hstrip & Hnum & _).
  assert (Hat : truthy (st !! "availability_date") = true) by (rewrite Ha; reflexivity).
  assert (Hi : extract_intent fuzzy_parse now text st = "select_time").
  { apply intent_of_number_after_check; [exact Hat|exact Hs|].
    rewrite Hstrip. exact Hnum. }
  unfold process_user_message. rewrite Hi, Hp, Hat.
  destruct (extract_date_time fuzzy_parse now text) as [date time_str]. simpl.
  unfold select_after_availability. rewrite Ha, Hh. reflexivity.
Qed.

(** Every hour from 24 to 99 raises. *)
Lemma hour_above_23_raises fuzzy_parse isoformat now text (st : session_state)
    cal d h :
  st !! "availability_date" = Some (VIso d) ->
  truthy (st !! "available_slots") = true ->
  truthy (st !! "pending_confirmation") = false ->
  digits12 text = true ->
  Py.int (Py.strip text) = Some h ->
  23 < h ->
  process_user_message fuzzy_parse isoformat now text st cal
  = Raise ValueError (<["pending_confirmation" := VBool true]> st) cal.
Proof.
  intros Ha Hs Hp Hd Hh Hlt.
  rewrite (number_after_check _ _ _ _ _ _ d h) by assumption.
  unfold replace_hm.
  replace (h <=? 23) with false by (symmetry; apply Z.leb_gt; lia).
  rewrite andb_false_r. reflexivity.
Qed.

(** ** Booking a named time *)

Lemma booked_slot_not_free (cal : list event) (d : datetime) (s : string) :
  Exists (books d s) cal -> s ∉ get_free_slots cal d.
Proof.
  intros Hb Hin. unfold get_free_slots in Hin.
  apply list_elem_of_In, filter_In in Hin as [_ Hin].
  apply negb_true_iff, bool_decide_eq_false in Hin.
  apply Hin, elem_of_booked_on, Hb.
Qed.

(** The direct booking of l.512-525 appends an event only for a label that
    is free, and the label is not free afterwards. *)
Lemma direct_booking_guarded d time_str st cal r st' cal' :
  book_or_offer d time_str (get_free_slots cal d) st cal = Return r st' cal' ->
  cal' <> cal ->
  exists t e,
    time_str = Some t /\ cal' = (cal ++ [e])%list /\ books d t e
    /\ ~ Exists (books d t) cal
    /\ t ∉ get_free_slots cal' d.
Proof.
  unfold book_or_offer. destruct (str_truthy time_str) eqn:Ht.
  - destruct time_str as [t|]; [|discriminate Ht]. simpl.
    case_bool_decide as Hfree; [|intros [= <- <- <-]; congruence].
    unfold book_directly.
    destruct (Py.int _) as [h|]; [|discriminate].
    destruct (_ !! 1%nat) as [m|]; [|discriminate].
    destruct (Py.int m) as [m'|]; [|discriminate].
    destruct (replace_hm h m' d) as [d'|] eqn:Er; [|discriminate].
    intros [= <- <- <-] _. exists t, (mk_event d' t 60 "Meeting").
    assert (Hb : books d t (mk_event d' t 60 "Meeting")).
    { split; [|reflexivity]. unfold replace_hm in Er.
      destruct (_ && _); [|discriminate]. injection Er as <-. reflexivity. }
    repeat split; try apply Hb.
    + intros Hex. exact (booked_slot_not_free _ _ _ Hex Hfree).
    + apply booked_slot_not_free, Exists_app. right. constructor. exact Hb.
  - destruct (get_free_slots cal d); intros [= <- <- <-]; congruence.
Qed.

(** * Further properties of the engine *)

(** ** Texts that are a number *)

Lemma is_space_lower_char (c : ascii) :
  Py.is_space (Py.lower_char c) = Py.is_space c.
Proof. destruct c as [[] [] [] [] [] [] [] []]; reflexivity. Qed.

Lemma lower_char_digit (c : ascii) :
  Py.is_digit (Py.lower_char c) = true -> Py.lower_char c = c.
Proof. destruct c as [[] [] [] [] [] [] [] []]; vm_compute; congruence. Qed.

Lemma digit_not_space (c : ascii) : Py.is_digit c = true -> Py.is_space c = false.
Proof. destruct c as [[] [] [] [] [] [] [] []]; vm_compute; congruence. Qed.

Lemma lstrip_lower (s : string) : Py.lstrip (Py.lower s) = Py.lower (Py.lstrip s).
Proof.
  induction s as [|c s IH]; simpl; [reflexivity|].
  rewrite is_space_lower_char. destruct (Py.is_space c); [exact IH|reflexivity].
Qed.

Lemma rstrip_lower (s : string) : Py.rstrip (Py.lower s) = Py.lower (Py.rstrip s).
Proof.
  induction s as [|c s IH]; simpl; [reflexivity|].
  rewrite IH, is_space_lower_char.
  destruct (Py.rstrip s); simpl; [destruct (Py.is_space c)|]; reflexivity.
Qed.

Lemma strip_lower (s : string) : Py.strip (Py.lower s) = Py.lower (Py.strip s).
Proof. unfold Py.strip. rewrite lstrip_lower, rstrip_lower. reflexivity. Qed.

(** The last character of a right-stripped text is no space. *)
Fixpoint last_char (s : string) : option ascii :=
  match s with
  | EmptyString => None
  | String c EmptyString => Some c
  | String _ s' => last_char s'
  end.

Lemma rstrip_last (s : string) (c : ascii) :
  last_char (Py.rstrip s) = Some c -> Py.is_space c = false.
Proof.
  induction s as [|a s IH]; simpl; [discriminate|].
  destruct (Py.rstrip s) as [|b r] eqn:E.
  - destruct (Py.is_space a) eqn:Ea; simpl; [discriminate|]. intros [= <-]. exact Ea.
  - intros H. apply IH. exact H.
Qed.

(** What [^\d{1,2}$] accepts: one or two digits, and a line feed after them
    at most. *)
Lemma is_number_inv (s : string) :
  is_number s = true ->
  digits12 s = true \/ exists t, digits12 t = true /\ s = t +:+ String "010" "".
Proof.
  unfold is_number, Re.re_match, Re.match_here, pat_number, Re.d12, Re.d.
  intros H. apply bool_decide_eq_true in H. revert H.
  destruct s as [|a [|b [|c [|e s]]]]; simpl;
    repeat match goal with
      | |- context [Py.is_digit ?x] => destruct (Py.is_digit x) eqn:?
      | |- context [(Py.code ?x =? 10)%N] =>
          destruct (N.eqb_spec (Py.code x) 10)
      end; simpl; intros [x Hx]; try discriminate Hx; auto;
    right;
    repeat match goal with
      | H : Py.code ?x = 10%N |- _ =>
          apply (f_equal ascii_of_N) in H; unfold Py.code in H;
          rewrite ascii_N_embedding in H; subst x
      end.
  - exists (String a ""). simpl. auto.
  - exists (String a (String b "")). simpl.
    split; [apply andb_true_iff; auto|reflexivity].
Qed.

Lemma stripped_number (s : string) :
  is_number (Py.strip s) = true -> digits12 (Py.strip s) = true.
Proof.
  intros H. destruct (is_number_inv _ H) as [Hd|(t & Ht & E)]; [exact Hd|].
  exfalso. assert (Hl : last_char (Py.strip s) = Some "010"%char).
  { rewrite E. destruct t as [|a [|b [|]]]; try discriminate Ht; reflexivity. }
  apply rstrip_last in Hl. discriminate Hl.
Qed.

Lemma lower_digits12_inv (s : string) :
  digits12 (Py.lower s) = true -> Py.lower s = s.
Proof.
  destruct s as [|a [|b [|]]]; simpl; try discriminate.
  - intros H. rewrite (lower_char_digit a H). reflexivity.
  - intros H. apply andb_true_iff in H as [Ha Hb].
    rewrite (lower_char_digit a Ha), (lower_char_digit b Hb). reflexivity.
Qed.

Lemma number_turn_digits (text : string) :
  is_number (Py.strip (Py.lower text)) = true -> digits12 (Py.strip text) = true.
Proof.
  intros H. apply stripped_number in H. rewrite strip_lower in H.
  rewrite <- (lower_digits12_inv _ H). exact H.
Qed.

Lemma digits12_int (t : string) :
  digits12 t = true -> exists h, Py.int t = Some h /\ 0 <= h <= 99.
Proof.
  destruct t as [|a [|b [|]]]; simpl; try discriminate.
  - intros Ha. each_digit Ha; vm_compute; eexists; (split; [reflexivity|]);
      split; discriminate.
  - intros Hab. apply andb_true_iff in Hab as [Ha Hb].
    each_digit Ha; each_digit Hb; vm_compute; eexists; (split; [reflexivity|]);
      split; discriminate.
Qed.

(** The text of a turn that passed [^\d{1,2}$] is read by [int] as an hour
    from 0 to 99. *)
Lemma number_turn_hour (text : string) :
  is_number (Py.strip (Py.lower text)) = true ->
  exists h, Py.int (Py.strip text) = Some h /\ 0 <= h <= 99.
Proof. intros H. apply digits12_int, number_turn_digits, H. Qed.

(** ** The classifier *)

Lemma select_time_inv fuzzy_parse now text (st : session_state) :
  extract_intent fuzzy_parse now text st = "select_time" ->
  is_number (Py.strip (Py.lower text)) = true
  /\ (truthy (st !! "waiting_for_time") = true
      \/ truthy (st !! "availability_date") = true
         /\ truthy (st !! "available_slots") = true).
Proof.
  unfold extract_intent.
  destruct (nonempty st); destruct (truthy (st !! "waiting_for_time"));
    destruct (truthy (st !! "availability_date"));
    destruct (truthy (st !! "available_slots"));
    destruct (is_number (Py.strip (Py.lower text))); simpl;
    repeat case_match; intros Hres; try discriminate Hres; auto.
Qed.


Lemma digits12_no_cancel (t : string) :
  digits12 t = true -> Py.contains "cancel" t = false.
Proof.
  destruct t as [|a [|b [|]]]; simpl digits12; try discriminate.
  - intros Ha. each_digit Ha; reflexivity.
  - intros Hab. apply andb_true_iff in Hab as [Ha Hb].
    each_digit Ha; each_digit Hb; reflexivity.
Qed.

(** X2: a text that contains "cancel" is classified [book], [check] or
    [cancel], in every state: the word "cancel" in the list of the rejection
    words (l.64) never decides, and a booking or availability word in the
    same text wins over it. *)
Theorem cancel_word_intents fuzzy_parse now text (st : session_state) :
  Py.contains "cancel" (Py.strip (Py.lower text)) = true ->
  extract_intent fuzzy_parse now text st ∈ ["book"; "check"; "cancel"].
Proof.
  intros Hc.
  assert (Hn : is_number (Py.strip (Py.lower text)) = false).
  { destruct (is_number _) eqn:E; [|reflexivity].
    apply stripped_number, digits12_no_cancel in E. congruence. }
  unfold extract_intent. rewrite Hn, !andb_false_r.
  assert (Hany : Py.any_in ["cancel"; "remove"; "delete"; "unbook"]
                   (Py.strip (Py.lower text)) = true).
  { unfold Py.any_in. simpl. rewrite Hc. reflexivity. }
  rewrite Hany.
  repeat case_match; apply list_elem_of_In; simpl; auto.
Qed.

Lemma cancel_word_intents_witness :
  extract_intent no_parse wednesday "Cancel that" ∅ ∈ ["book"; "check"; "cancel"].
Proof.
  apply (cancel_word_intents no_parse wednesday "Cancel that" ∅). reflexivity.
Defined.

(** ** Dates *)

Lemma weekday_range (d : datetime) : 0 <= weekday d <= 6.
Proof. unfold weekday. pose proof (Z.mod_pos_bound (ordinal d + 6) 7). lia. Qed.

Lemma days_ahead_spec (n : Z) (today : datetime) :
  0 <= n <= 6 ->
  1 <= days_ahead n today <= 7
  /\ weekday (add_days (days_ahead n today) today) = n
  /\ weekday (add_days (days_ahead n today + 7) today) = n.
Proof.
  intros Hn. pose proof (weekday_range today) as Hw.
  unfold days_ahead. unfold weekday in *. simpl.
  destruct (Z.leb_spec (n - (ordinal today + 6) mod 7) 0);
    (split; [lia|]); split; Z.div_mod_to_equations; lia.
Qed.

Lemma day_patterns_range :
  Forall (fun p : string * Z => 0 <= p.2 <= 6) day_patterns.
Proof. unfold day_patterns. repeat constructor; simpl; lia. Qed.

Lemma day_of_week_spec (pats : list (string * Z)) text_lower today d :
  Forall (fun p : string * Z => 0 <= p.2 <= 6) pats ->
  day_of_week pats text_lower today = Some d ->
  exists name n k,
    (name, n) ∈ pats
    /\ Py.contains name text_lower = true
    /\ d = add_days k today
    /\ weekday d = n
    /\ (if Py.contains "this" text_lower then 1 <= k <= 7
        else if Py.contains "next" text_lower then 8 <= k <= 14
        else 1 <= k <= 7).
Proof.
  intros Hp. induction Hp as [|[name n] pats Hn _ IH]; simpl; [discriminate|].
  destruct (Py.contains name text_lower) eqn:Ec.
  - destruct (days_ahead_spec n today Hn) as (Hr & Hw & Hw7).
    intros H. exists name, n.
    destruct (Py.contains "this" text_lower);
      [|destruct (Py.contains "next" text_lower)]; injection H as <-;
      eexists; (split; [apply list_elem_of_here|]); (split; [exact Ec|]);
      (split; [reflexivity|]); (split; [assumption|]); lia.
  - intros H. destruct (IH H) as (name' & n' & k & Hin & Hrest).
    exists name', n', k. split; [apply list_elem_of_further, Hin|exact Hrest].
Qed.

Lemma extract_date_day_name fuzzy_parse (today : datetime) text_lower :
  Py.contains "tomorrow" text_lower = false ->
  Py.contains "today" text_lower = false ->
  Py.contains "next week" text_lower = false ->
  Py.contains "this week" text_lower = false ->
  Py.any_in (day_patterns.*1) text_lower = true ->
  exists name n k,
    (name, n) ∈ day_patterns
    /\ Py.contains name text_lower = true
    /\ extract_date fuzzy_parse text_lower today = Some (add_days k today)
    /\ weekday (add_days k today) = n
    /\ (if Py.contains "this" text_lower then 1 <= k <= 7
        else if Py.contains "next" text_lower then 8 <= k <= 14
        else 1 <= k <= 7).
Proof.
  intros H1 H2 H3 H4 Hday. unfold extract_date. rewrite H1, H2, H3, H4.
  destruct (day_of_week day_patterns text_lower today) as [d|] eqn:E.
  - destruct (day_of_week_spec _ _ _ _ day_patterns_range E)
      as (name & n & k & Hin & Hc & -> & Hw & Hk).
    exists name, n, k. auto.
  - exfalso. clear -E Hday. unfold Py.any_in in Hday.
    revert E Hday. generalize day_patterns.
    induction l as [|[name n] l IH]; simpl; [discriminate|].
    destruct (Py.contains name text_lower); simpl; [|exact IH].
    repeat case_match; discriminate.
Qed.

(** X3: when no relative keyword (tomorrow, today, next week, this week)
    is in the text and a day name of the table is, the date is the clock
    reading moved by whole days to a day strictly after today whose weekday is
    the one the table gives for a day name of the text: 1 to 7 days ahead
    with "this" or with the bare name, 8 to 14 days ahead with "next" and
    without "this"; a day name typed on that same weekday resolves to the
    week after, never to today. *)
Theorem day_name_resolves_forward fuzzy_parse (now : datetime) (text : string) :
  let text_lower := Py.strip (Py.lower text) in
  Py.contains "tomorrow" text_lower = false ->
  Py.contains "today" text_lower = false ->
  Py.contains "next week" text_lower = false ->
  Py.contains "this week" text_lower = false ->
  Py.any_in (day_patterns.*1) text_lower = true ->
  exists name n k,
    (name, n) ∈ day_patterns
    /\ Py.contains name text_lower = true
    /\ (extract_date_time fuzzy_parse now text).1 = Some (add_days k now)
    /\ weekday (add_days k now) = n
    /\ (if Py.contains "this" text_lower then 1 <= k <= 7
        else if Py.contains "next" text_lower then 8 <= k <= 14
        else 1 <= k <= 7).
Proof.
  intros tl H1 H2 H3 H4 Hd.
  exact (extract_date_day_name fuzzy_parse now tl H1 H2 H3 H4 Hd).
Qed.

Lemma day_name_resolves_forward_witness :
  exists name n k,
    (name, n) ∈ day_patterns
    /\ Py.contains name "next friday" = true
    /\ (extract_date_time no_parse wednesday "Next Friday").1
       = Some (add_days k wednesday)
    /\ weekday (add_days k wednesday) = n
    /\ (if Py.contains "this" "next friday" then 1 <= k <= 7
        else if Py.contains "next" "next friday" then 8 <= k <= 14
        else 1 <= k <= 7).
Proof.
  apply (day_name_resolves_forward no_parse wednesday "Next Friday");
    reflexivity.
Defined.

Lemma extract_date_next_week fuzzy_parse (today : datetime) text_lower :
  Py.contains "tomorrow" text_lower = false ->
  Py.contains "today" text_lower = false ->
  Py.contains "next week" text_lower = true ->
  exists k,
    extract_date fuzzy_parse text_lower today = Some (add_days k today)
    /\ 1 <= k <= 7
    /\ weekday (add_days k today) = 0
    /\ forall j, 1 <= j < k -> weekday (add_days j today) <> 0.
Proof.
  intros H1 H2 H3. unfold extract_date. rewrite H1, H2, H3.
  pose proof (weekday_range today) as Hw. unfold weekday in *. simpl.
  destruct (Z.eqb_spec ((7 - (ordinal today + 6) mod 7) mod 7) 0) as [E|E];
    eexists; (split; [reflexivity|]); simpl;
    (split; [Z.div_mod_to_equations; lia|]);
    (split; [Z.div_mod_to_equations; lia|]);
    intros j Hj; Z.div_mod_to_equations; lia.
Qed.

(** X4: a text with "next week", and with neither "tomorrow" nor "today",
    resolves to the first Monday strictly after the clock reading, 1 to 7 days
    ahead, at the clock's time of day. *)
Theorem next_week_is_next_monday fuzzy_parse (now : datetime) (text : string) :
  let text_lower := Py.strip (Py.lower text) in
  Py.contains "tomorrow" text_lower = false ->
  Py.contains "today" text_lower = false ->
  Py.contains "next week" text_lower = true ->
  exists k,
    (extract_date_time fuzzy_parse now text).1 = Some (add_days k now)
    /\ 1 <= k <= 7
    /\ weekday (add_days k now) = 0
    /\ forall j, 1 <= j < k -> weekday (add_days j now) <> 0.
Proof.
  intros tl H1 H2 H3. exact (extract_date_next_week fuzzy_parse now tl H1 H2 H3).
Qed.

Lemma next_week_is_next_monday_witness :
  exists k,
    (extract_date_time no_parse wednesday "Book something next week").1
    = Some (add_days k wednesday)
    /\ 1 <= k <= 7
    /\ weekday (add_days k wednesday) = 0
    /\ forall j, 1 <= j < k -> weekday (add_days j wednesday) <> 0.
Proof.
  apply (next_week_is_next_monday no_parse wednesday "Book something next week");
    reflexivity.
Defined.

(** ** Free slots and booked events *)

Lemma booked_on_app (cal1 cal2 : list event) (d : datetime) :
  booked_on (cal1 ++ cal2) d = (booked_on cal1 d ++ booked_on cal2 d)%list.
Proof.
  induction cal1 as [|e cal1 IH]; simpl; [reflexivity|].
  destruct (_ =? _); simpl; rewrite IH; reflexivity.
Qed.

Lemma filter_filter_and {A} (f g : A -> bool) (l : list A) :
  List.filter f (List.filter g l) = List.filter (fun x => g x && f x) l.
Proof.
  induction l as [|x l IH]; simpl; [reflexivity|].
  destruct (g x); simpl; [destruct (f x)|]; rewrite IH; reflexivity.
Qed.

Lemma grid_nodup : NoDup grid.
Proof. apply (bool_decide_unpack _). vm_compute. exact I. Qed.

(** X5: one more event in the store changes the free slots of a date only
    when the event is on that date, and then it takes away exactly its own
    time label; the free slots never repeat a label. *)
Theorem free_slots_after_append (cal : list event) (e : event) (d : datetime) :
  get_free_slots (cal ++ [e]) d
  = (if date_of (ev_date e) =? date_of d
     then List.filter (fun s => negb (bool_decide (s = ev_time e)))
            (get_free_slots cal d)
     else get_free_slots cal d)
  /\ NoDup (get_free_slots cal d).
Proof.
  split.
  - unfold get_free_slots. rewrite booked_on_app. cbn [booked_on].
    destruct (date_of (ev_date e) =? date_of d).
    + rewrite filter_filter_and. apply filter_ext. intros s.
      rewrite <- negb_orb. f_equal.
      apply eq_true_iff_eq. rewrite orb_true_iff, !bool_decide_eq_true.
      rewrite elem_of_app, list_elem_of_singleton. reflexivity.
    + rewrite app_nil_r. reflexivity.
  - unfold get_free_slots. rewrite grid_labels.
    apply NoDup_ListNoDup, List.NoDup_filter, NoDup_ListNoDup, grid_nodup.
Qed.

(** ** Hours and labels *)

Lemma range_check (P : Z -> bool) (n : nat) :
  forallb P (seqZ 0 (Z.of_nat n)) = true ->
  forall h, 0 <= h < Z.of_nat n -> P h = true.
Proof.
  intros H h Hh. rewrite forallb_forall in H. apply H.
  apply list_elem_of_In, elem_of_seqZ. lia.
Qed.

Lemma label_hour (h : Z) :
  0 <= h <= 99 ->
  Py.int (hd "" (Py.split_on ":" (slot_label h))) = Some h
  /\ parse_time_to_hour (slot_label h) = Some h.
Proof.
  intros Hh.
  pose (P := fun h : Z => bool_decide
                 (Py.int (hd "" (Py.split_on ":" (slot_label h))) = Some h
                  /\ parse_time_to_hour (slot_label h) = Some h)).
  assert (Hc : P h = true).
  { apply (range_check P 100); [vm_compute; reflexivity|lia]. }
  apply bool_decide_eq_true in Hc. exact Hc.
Qed.

(** X6: [parse_time_to_hour] reads back the hour of every slot label: for an
    hour from 0 to 99, the label [f"{hour:02d}:00"] parses to that hour. *)
Theorem parse_time_to_hour_of_label (h : Z) :
  0 <= h <= 99 -> parse_time_to_hour (slot_label h) = Some h.
Proof. intros Hh. apply label_hour, Hh. Qed.

Lemma parse_time_to_hour_of_label_witness :
  parse_time_to_hour (slot_label 13) = Some 13.
Proof. apply (parse_time_to_hour_of_label 13). lia. Defined.

Lemma get_free_slots_hours (cal : list event) (d : datetime) :
  get_free_slots cal d = slot_label <$> free_hours cal d.
Proof.
  unfold get_free_slots, free_hours. generalize (py_range 9 18).
  induction l as [|h l IH]; [reflexivity|].
  cbn [fmap list_fmap List.filter]. fold (fmap (M:=list) slot_label l).
  rewrite IH. destruct (negb _); reflexivity.
Qed.

Lemma free_hours_range (cal : list event) (d : datetime) :
  Forall (fun h => 9 <= h <= 17) (free_hours cal d).
Proof.
  unfold free_hours. apply Forall_forall. intros h Hh.
  apply list_elem_of_In, filter_In in Hh as [Hh _].
  assert (F : Forall (fun h => 9 <= h <= 17) (py_range 9 18))
    by (unfold py_range; simpl; repeat constructor; lia).
  rewrite Forall_forall in F. apply F, list_elem_of_In, Hh.
Qed.

Lemma slots_in_range_labels (a b : Z) (hs : list Z) :
  Forall (fun h => 0 <= h <= 99) hs ->
  slots_in_range a b (slot_label <$> hs)
  = Some (slot_label <$> List.filter (fun h => (a <=? h) && (h <=? b)) hs).
Proof.
  induction 1 as [|h hs Hh _ IH]; [reflexivity|].
  change (slot_label <$> (h :: hs)) with (slot_label h :: (slot_label <$> hs)).
  cbn [slots_in_range List.filter].
  rewrite (proj1 (label_hour h Hh)), IH. cbn [mbind option_bind].
  destruct (_ && _); reflexivity.
Qed.

(** X7: on the free slots of a date the range filter of l.493-497 never
    raises, and keeps, in order, exactly the labels of the free hours [h] with
    [start_hour <= h <= end_hour], both ends included. *)
Theorem range_filter_on_free_slots (a b : Z) (cal : list event) (d : datetime) :
  slots_in_range a b (get_free_slots cal d)
  = Some (slot_label
            <$> List.filter (fun h => (a <=? h) && (h <=? b)) (free_hours cal d)).
Proof.
  rewrite get_free_slots_hours. apply slots_in_range_labels.
  eapply Forall_impl; [apply free_hours_range|]. simpl. intros. lia.
Qed.

(** X8: for a text [t] of one or two digits with value [h],
    [parse_time_to_hour] gives [h] for [t] alone (24-hour reading), [h + 12]
    for [t] followed by "pm" unless [h] is 12, and [h] for [t] followed by
    "am" unless [h] is 12, which gives 0; minutes after a colon are dropped.
    The hour is not checked against 0..23: "13pm" gives 25. *)
Theorem parse_time_to_hour_forms (t : string) :
  digits12 t = true ->
  exists h,
    Py.int t = Some h
    /\ parse_time_to_hour t = Some h
    /\ parse_time_to_hour (t +:+ "pm") = Some (if h =? 12 then 12 else h + 12)
    /\ parse_time_to_hour (t +:+ " PM") = Some (if h =? 12 then 12 else h + 12)
    /\ parse_time_to_hour (t +:+ "am") = Some (if h =? 12 then 0 else h)
    /\ parse_time_to_hour (t +:+ ":30pm") = parse_time_to_hour (t +:+ "pm")
    /\ parse_time_to_hour (t +:+ ":30") = Some h.
Proof.
  destruct t as [|a [|b [|]]]; simpl digits12; try discriminate.
  - intros Ha. each_digit Ha; eexists; vm_compute; repeat split; reflexivity.
  - intros Hab. apply andb_true_iff in Hab as [Ha Hb].
    each_digit Ha; each_digit Hb; eexists; vm_compute; repeat split; reflexivity.
Qed.

Lemma parse_time_to_hour_forms_witness :
  exists h,
    Py.int "13" = Some h
    /\ parse_time_to_hour "13" = Some h
    /\ parse_time_to_hour "13pm" = Some (if h =? 12 then 12 else h + 12)
    /\ parse_time_to_hour "13 PM" = Some (if h =? 12 then 12 else h + 12)
    /\ parse_time_to_hour "13am" = Some (if h =? 12 then 0 else h)
    /\ parse_time_to_hour "13:30pm" = parse_time_to_hour "13pm"
    /\ parse_time_to_hour "13:30" = Some h.
Proof. apply (parse_time_to_hour_forms "13"). reflexivity. Defined.

Lemma extract_time_number (t : string) :
  digits12 t = true ->
  exists h, Py.int t = Some h
            /\ extract_time t = Some (slot_label (if h <? 6 then h + 12 else h)).
Proof.
  destruct t as [|a [|b [|]]]; simpl digits12; try discriminate.
  - intros Ha. each_digit Ha; eexists; vm_compute; split; reflexivity.
  - intros Hab. apply andb_true_iff in Hab as [Ha Hb].
    each_digit Ha; each_digit Hb; eexists; vm_compute; split; reflexivity.
Qed.

(** X9: from a text that is, lower-cased and stripped, one or two digits of
    value [h], the extracted time is the label of hour [h + 12] when [h] is
    below 6 and of hour [h] otherwise: "3" is read as 15:00, "9" as 09:00,
    "13" as 13:00, and "99" as 99:00. *)
Theorem bare_number_time fuzzy_parse (now : datetime) (text : string) :
  digits12 (Py.strip (Py.lower text)) = true ->
  exists h,
    Py.int (Py.strip text) = Some h
    /\ 0 <= h <= 99
    /\ (extract_date_time fuzzy_parse now text).2
       = Some (slot_label (if h <? 6 then h + 12 else h)).
Proof.
  intros Hd. unfold extract_date_time. cbn [snd].
  destruct (extract_time_number _ Hd) as (h & Hh & Ht).
  assert (E : Py.strip (Py.lower text) = Py.strip text).
  { rewrite strip_lower in *. apply lower_digits12_inv, Hd. }
  rewrite E in *. exists h. split; [exact Hh|]. split; [|exact Ht].
  destruct (digits12_int _ Hd) as (h' & Hh' & Hr). congruence.
Qed.

Lemma bare_number_time_witness :
  exists h,
    Py.int (Py.strip " 3 ") = Some h
    /\ 0 <= h <= 99
    /\ (extract_date_time no_parse wednesday " 3 ").2
       = Some (slot_label (if h <? 6 then h + 12 else h)).
Proof. apply (bare_number_time no_parse wednesday " 3 "). reflexivity. Defined.

(** ** The shape of the session state *)

(** Membership in a list that is written out. *)
Ltac in_keys :=
  unfold flag_keys, date_keys in *;
  repeat match goal with
    | H : _ ∈ _ |- _ => apply list_elem_of_In in H; simpl in H
    end;
  try (apply list_elem_of_In; simpl);
  intuition (subst; try discriminate; auto).

Lemma well_formed_empty : well_formed ∅.
Proof.
  split; [apply map_Forall_empty|]. rewrite lookup_empty. intros [x Hx]. discriminate.
Qed.

Lemma well_formed_insert (k : string) (v : value) (st : session_state) :
  k <> "pending_confirmation" -> k <> "pending_booking" ->
  entry_ok k v -> well_formed st -> well_formed (<[k := v]> st).
Proof.
  intros H1 H2 He [Hm Hp]. split; [apply map_Forall_insert_2; assumption|].
  rewrite !lookup_insert_ne by done. exact Hp.
Qed.

Lemma well_formed_pending (b : booking) (st : session_state) :
  booking_ok b -> well_formed st ->
  well_formed (<["pending_booking" := VBooking b]>
                 (<["pending_confirmation" := VBool true]> st)).
Proof.
  intros Hb [Hm Hp]. split.
  - apply map_Forall_insert_2; [right; right; right; eauto|].
    apply map_Forall_insert_2; [|exact Hm].
    left. split; [|reflexivity]. in_keys.
  - intros _. rewrite lookup_insert_eq. eauto.
Qed.

Lemma entry_flag (k : string) : k ∈ flag_keys -> entry_ok k (VBool true).
Proof. intros H. left. auto. Qed.

Lemma entry_date (k : string) (d : datetime) : k ∈ date_keys -> entry_ok k (VIso d).
Proof. intros H. right. left. eauto. Qed.

Lemma entry_slots (l : list string) :
  l <> [] -> Forall (fun s => s ∈ grid) l -> entry_ok "available_slots" (VSlots l).
Proof. intros H1 H2. right. right. left. eauto. Qed.

Lemma well_formed_lookup (st : session_state) (k : string) (v : value) :
  well_formed st -> st !! k = Some v -> entry_ok k v.
Proof. intros [Hm _] H. exact (Hm k v H). Qed.

(** What the state holds under a key of each kind. *)
Lemma well_formed_date (st : session_state) (k : string) (v : value) :
  well_formed st -> k ∈ date_keys -> st !! k = Some v -> exists d, v = VIso d.
Proof.
  intros Hw Hk H. destruct (well_formed_lookup _ _ _ Hw H)
    as [[Hf _]|[[_ Hd]|[[-> _]|[-> _]]]]; [|exact Hd| |]; exfalso; in_keys.
Qed.

Lemma well_formed_slots (st : session_state) (v : value) :
  well_formed st -> st !! "available_slots" = Some v ->
  exists l, v = VSlots l /\ l <> [] /\ Forall (fun s => s ∈ grid) l.
Proof.
  intros Hw H. destruct (well_formed_lookup _ _ _ Hw H)
    as [[Hf _]|[[Hd _]|[[_ Hs]|[E _]]]]; [| |exact Hs|discriminate E];
    exfalso; in_keys.
Qed.

Lemma well_formed_booking (st : session_state) (v : value) :
  well_formed st -> st !! "pending_booking" = Some v ->
  exists b, v = VBooking b /\ booking_ok b.
Proof.
  intros Hw H. destruct (well_formed_lookup _ _ _ Hw H)
    as [[Hf _]|[[Hd _]|[[E _]|[_ Hb]]]]; [| |discriminate E|exact Hb];
    exfalso; in_keys.
Qed.

Lemma replace_hm_spec (h m : Z) (d d' : datetime) :
  replace_hm h m d = Some d' ->
  0 <= h <= 23 /\ 0 <= m <= 59 /\ hour d' = h /\ minute d' = m
  /\ date_of d' = date_of d.
Proof.
  unfold replace_hm. destruct (_ && _) eqn:E; [|discriminate].
  intros [= <-]. rewrite !andb_true_iff, !Z.leb_le in E.
  unfold date_of. simpl. intuition lia.
Qed.

Lemma booking_of_replace (h : Z) (d d' : datetime) :
  replace_hm h 0 d = Some d' ->
  booking_ok (mk_booking d' (slot_label h) (Some 60) (Some "Meeting")).
Proof.
  intros H. apply replace_hm_spec in H as (Hh & _ & Eh & Em & _).
  unfold booking_ok. simpl. rewrite Eh, Em. auto.
Qed.

Ltac wf_state :=
  repeat first
    [ assumption
    | apply well_formed_empty
    | apply well_formed_pending; [eapply booking_of_replace; eassumption|]
    | apply well_formed_insert;
        [done | done
        | first [apply entry_flag; in_keys | apply entry_date; in_keys] |] ].

Ltac step_cases :=
  repeat case_match; simplify_eq; simpl; try exact I;
  (split; [wf_state|auto]).

Lemma event_of_booking_ok (b : booking) : booking_ok b -> event_ok (event_of_booking b).
Proof.
  intros (H1 & H2 & H3 & H4 & H5). unfold event_ok, event_of_booking. simpl.
  rewrite H4, H5. auto.
Qed.

Lemma grid_label_hour (t : string) :
  t ∈ grid -> exists h, 9 <= h <= 17 /\ t = slot_label h.
Proof.
  unfold grid. intros H.
  repeat (apply elem_of_cons in H as [->|H]); [..|by apply elem_of_nil in H].
  - exists 9. split; [lia|reflexivity].
  - exists 10. split; [lia|reflexivity].
  - exists 11. split; [lia|reflexivity].
  - exists 12. split; [lia|reflexivity].
  - exists 13. split; [lia|reflexivity].
  - exists 14. split; [lia|reflexivity].
  - exists 15. split; [lia|reflexivity].
  - exists 16. split; [lia|reflexivity].
  - exists 17. split; [lia|reflexivity].
Qed.

(** The direct booking of a label of the grid cannot raise. *)
Lemma book_directly_label (date : datetime) (h : Z) (cal : list event) :
  9 <= h <= 17 ->
  book_directly date (slot_label h) cal
  = Return (RPerfect date (slot_label h)) ∅
      (cal ++ [mk_event (mk_datetime (ordinal date) h 0 (second date)
                           (microsecond date))
                 (slot_label h) 60 "Meeting"]).
Proof.
  intros Hh.
  assert (E : h = 9 \/ h = 10 \/ h = 11 \/ h = 12 \/ h = 13 \/ h = 14
              \/ h = 15 \/ h = 16 \/ h = 17) by lia.
  repeat destruct E as [->|E]; try subst h; reflexivity.
Qed.

Lemma confirm_pending_step st cal :
  well_formed st -> step_ok cal (confirm_pending st cal).
Proof.
  intros Hw. unfold confirm_pending.
  destruct (st !! "pending_booking") as [v|] eqn:E; simpl;
    [|split; [wf_state|auto]].
  destruct (well_formed_booking _ _ Hw E) as (b & -> & Hb). simpl.
  split; [wf_state|]. right. eexists. split; [reflexivity|].
  apply event_of_booking_ok, Hb.
Qed.

Lemma select_after_availability_step text st cal :
  well_formed st -> step_ok cal (select_after_availability text st cal).
Proof. intros Hw. unfold select_after_availability. step_cases. Qed.

Lemma check_availability_flow_step date st cal :
  well_formed st -> step_ok cal (check_availability_flow date st cal).
Proof. intros Hw. unfold check_availability_flow. step_cases. Qed.

Lemma select_from_range_step iso now text st cal o :
  well_formed st ->
  select_from_range iso now text st cal = Some o -> step_ok cal o.
Proof.
  intros Hw. unfold select_from_range.
  destruct (_ && _); [|discriminate].
  destruct (Py.int _) as [h|]; [|intros [= <-]; simpl; auto].
  destruct (st !! "available_slots") as [slots|] eqn:Es;
    [|intros [= <-]; simpl; auto].
  destruct (well_formed_slots _ _ Hw Es) as (l & -> & _ & Hl). simpl.
  case_bool_decide as Hin; [|intros [= <-]; simpl; auto].
  assert (Hg : slot_label h ∈ grid) by (rewrite Forall_forall in Hl; auto).
  destruct (date_for_selection now st) as [d|]; [|intros [= <-]; simpl; auto].
  destruct (slot_label_grid_replace h d Hg) as [d' Hd']. rewrite Hd'.
  intros [= <-]. simpl. split; [wf_state|auto].
Qed.

Lemma time_selection_step iso now text st cal :
  well_formed st -> truthy (st !! "availability_date") = false ->
  step_ok cal (time_selection iso now text st cal).
Proof.
  intros Hw Ha. unfold time_selection, select_from_availability. rewrite Ha. simpl.
  destruct (select_from_range _ _ _ _ _) eqn:E;
    [eapply select_from_range_step; eauto|].
  simpl. split; [wf_state|auto].
Qed.

Lemma confirm_intent_step st cal :
  well_formed st -> step_ok cal (confirm_intent st cal).
Proof.
  intros Hw. unfold confirm_intent.
  destruct (st !! "pending_booking") as [v|] eqn:E; [|exact I].
  destruct (well_formed_booking _ _ Hw E) as (b & -> & Hb). simpl.
  split; [wf_state|]. right. eexists. split; [reflexivity|].
  apply event_of_booking_ok, Hb.
Qed.

Lemma well_formed_offer (l : list string) (st : session_state) :
  l <> [] -> Forall (fun s => s ∈ grid) l -> well_formed st ->
  well_formed (<["available_slots" := VSlots l]> st).
Proof.
  intros H1 H2 Hw. apply well_formed_insert; [done|done| |exact Hw].
  apply entry_slots; assumption.
Qed.

Lemma availability_check_step date st cal :
  well_formed st -> step_ok cal (availability_check date st cal).
Proof.
  intros Hw. unfold availability_check. destruct date as [d|]; simpl;
    [|split; [wf_state|auto]].
  destruct (get_free_slots cal d) eqn:E; simpl; (split; [|auto]); [wf_state|].
  rewrite <- E. apply well_formed_offer; [congruence|apply get_free_slots_grid|].
  wf_state.
Qed.

Lemma book_or_offer_step d time_str cal' st cal :
  well_formed st ->
  step_ok cal (book_or_offer d time_str (get_free_slots cal' d) st cal).
Proof.
  intros Hw. unfold book_or_offer.
  destruct (str_truthy time_str).
  - case_bool_decide as Hin; [|simpl; split; [wf_state|auto]].
    assert (Hg : default "" time_str ∈ grid).
    { pose proof (get_free_slots_grid cal' d) as F.
      rewrite Forall_forall in F. auto. }
    destruct (grid_label_hour _ Hg) as (h & Hh & ->).
    rewrite book_directly_label by exact Hh. simpl.
    split; [wf_state|]. right. eexists. split; [reflexivity|].
    unfold event_ok. simpl. repeat split; auto; lia.
  - destruct (get_free_slots cal' d) eqn:E; simpl; (split; [|auto]); [wf_state|].
    rewrite <- E. apply well_formed_offer; [congruence|apply get_free_slots_grid|].
    wf_state.
Qed.

Lemma book_in_range_step d g cal' st cal :
  well_formed st ->
  step_ok cal (book_in_range d g (get_free_slots cal' d) st cal).
Proof.
  intros Hw. unfold book_in_range.
  destruct (parse_time_to_hour _); [|exact I].
  destruct (parse_time_to_hour _); [|exact I].
  destruct (slots_in_range _ _ _) as [l|] eqn:E; [|exact I].
  apply (slots_in_range_sub (fun s => s ∈ grid)) in E; [|apply get_free_slots_grid].
  destruct l as [|s l]; simpl; (split; [|auto]); [wf_state|].
  apply well_formed_offer; [discriminate|exact E|]. wf_state.
Qed.

Lemma booking_intent_step text date time_str st cal :
  well_formed st -> step_ok cal (booking_intent text date time_str st cal).
Proof.
  intros Hw. unfold booking_intent. destruct date as [d|]; simpl;
    [|split; [wf_state|auto]].
  destruct (Re.search _ _).
  - apply book_in_range_step. wf_state.
  - apply book_or_offer_step. wf_state.
Qed.

Lemma flow_fallback_step date time_str st cal :
  well_formed st -> step_ok cal (flow_fallback date time_str st cal).
Proof.
  intros Hw. unfold flow_fallback.
  destruct (_ && _).
  - destruct date as [d|]; simpl; [|split; [wf_state|auto]].
    apply book_or_offer_step. wf_state.
  - step_cases.
Qed.

Lemma flow_management_step date time_str st cal :
  well_formed st -> step_ok cal (flow_management date time_str st cal).
Proof.
  intros Hw. pose proof (flow_fallback_step date time_str st cal Hw).
  unfold flow_management. repeat case_match; simplify_eq; simpl; auto;
    (split; [wf_state|auto]).
Qed.

(** One turn keeps the state well formed and appends well-formed events. *)
Lemma turn_step fuzzy_parse isoformat now text st cal :
  well_formed st ->
  step_ok cal (process_user_message fuzzy_parse isoformat now text st cal).
Proof.
  intros Hw. unfold process_user_message.
  destruct (extract_date_time fuzzy_parse now text) as [date time_str].
  generalize (extract_intent fuzzy_parse now text st). intros intent.
  destruct (_ && _); [apply confirm_pending_step, Hw|].
  destruct (truthy (st !! "availability_date")) eqn:Ha; simpl.
  - destruct (intent =? "select_time")%string;
      [apply select_after_availability_step, Hw|].
    destruct (intent =? "check_availability")%string;
      [apply check_availability_flow_step, Hw|].
    destruct (intent =? "greeting")%string; [simpl; split; [wf_state|auto]|].
    destruct (_ && _); [apply confirm_intent_step, Hw|].
    destruct (_ && _); [simpl; split; [wf_state|auto]|].
    destruct (intent =? "check")%string; [apply availability_check_step, Hw|].
    destruct (intent =? "book")%string; [apply booking_intent_step, Hw|].
    apply flow_management_step, Hw.
  - destruct (intent =? "check_availability")%string;
      [apply check_availability_flow_step, Hw|].
    destruct (intent =? "greeting")%string; [simpl; split; [wf_state|auto]|].
    destruct (intent =? "select_time")%string;
      [apply time_selection_step; assumption|].
    destruct (_ && _); [apply confirm_intent_step, Hw|].
    destruct (_ && _); [simpl; split; [wf_state|auto]|].
    destruct (intent =? "check")%string; [apply availability_check_step, Hw|].
    destruct (intent =? "book")%string; [apply booking_intent_step, Hw|].
    apply flow_management_step, Hw.
Qed.

Lemma reachable_step fuzzy_parse isoformat st cal :
  reachable fuzzy_parse isoformat st cal -> well_formed st.
Proof.
  induction 1 as [cal|st cal now text r st' cal' _ IH Hturn].
  - apply well_formed_empty.
  - pose proof (turn_step fuzzy_parse isoformat now text st cal IH) as Hs.
    unfold turn in Hturn. rewrite Hturn in Hs. exact (proj1 Hs).
Qed.

(** X10: every session state a conversation reaches holds only the nine
    keys of the controller, each with its kind of value: the five flags are
    [True], [selected_date] and [availability_date] are ISO dates,
    [available_slots] is a non-empty list of labels of the grid, and
    [pending_booking] is a booking dict on the hour, with the label of its
    hour, sixty minutes and the title "Meeting"; with
    [pending_confirmation] comes [pending_booking]. *)
Theorem reachable_states_well_formed fuzzy_parse isoformat
    (st : session_state) (cal : list event) :
  reachable fuzzy_parse isoformat st cal ->
  (forall k v, st !! k = Some v -> entry_ok k v)
  /\ (is_Some (st !! "pending_confirmation") -> is_Some (st !! "pending_booking")).
Proof. intros H. exact (reachable_step _ _ _ _ H). Qed.

Lemma reachable_states_well_formed_witness :
  (forall k v, st_time_taken !! k = Some v -> entry_ok k v)
  /\ (is_Some (st_time_taken !! "pending_confirmation")
      -> is_Some (st_time_taken !! "pending_booking")).
Proof.
  apply (reachable_states_well_formed no_parse no_iso st_time_taken [meeting_13]).
  apply st_time_taken_reachable.
Defined.

Lemma run_turns_step fuzzy_parse isoformat turns st cal st' cal' :
  well_formed st -> Forall event_ok cal ->
  run_turns fuzzy_parse isoformat turns st cal = Some (st', cal') ->
  well_formed st' /\ Forall event_ok cal'.
Proof.
  revert st cal. induction turns as [|[now text] turns IH]; simpl;
    intros st cal Hw Hc H.
  - injection H as <- <-. auto.
  - pose proof (turn_step fuzzy_parse isoformat now text st cal Hw) as Hs.
    destruct (process_user_message _ _ now text st cal) as [r st1 cal1|];
      [|discriminate].
    destruct Hs as [Hw1 [->|(e & -> & He)]].
    + eapply IH; eauto.
    + eapply IH; [exact Hw1| |exact H].
      apply Forall_app. split; [exact Hc|]. constructor; [exact He|constructor].
Qed.

(** X11: in a conversation that starts with an empty store, every event of
    the store is on the hour (hour 0 to 23, minute 0), carries as its time the
    label of the hour of its date, lasts sixty minutes and is titled
    "Meeting". *)
Theorem stored_events_agree fuzzy_parse isoformat turns st cal :
  run_turns fuzzy_parse isoformat turns ∅ [] = Some (st, cal) ->
  Forall event_ok cal.
Proof.
  intros H. eapply (run_turns_step _ _ turns ∅ []); eauto.
  - apply well_formed_empty.
Qed.

Lemma stored_events_agree_witness : Forall event_ok [meeting_13; meeting_13].
Proof.
  apply (stored_events_agree no_parse no_iso
           [(wednesday, "book a meeting tomorrow at 1pm");
            (wednesday, "am I free tomorrow");
            (wednesday, "13");
            (wednesday, "yes")] ∅).
  vm_compute. reflexivity.
Defined.

(** ** Turns that reset or keep the state *)

(** X12: a turn classified [greeting] answers with the greeting and an
    empty session state in every state, so a pending booking or a flow in
    progress is dropped; the store is left as it was. *)
Theorem greeting_resets fuzzy_parse isoformat now text (st : session_state) cal :
  extract_intent fuzzy_parse now text st = "greeting" ->
  process_user_message fuzzy_parse isoformat now text st cal
  = Return RGreeting ∅ cal.
Proof.
  intros Hi. unfold process_user_message. rewrite Hi.
  destruct (extract_date_time fuzzy_parse now text) as [date time_str].
  replace (bool_decide ("greeting" ∈ ["confirm"; "yes"; "ok"])) with false
    by reflexivity.
  rewrite !andb_false_r. reflexivity.
Qed.

Lemma greeting_resets_witness :
  process_user_message no_parse no_iso wednesday "Hello"
    (pending st_checked (mk_booking tomorrow_13 "13:00" (Some 60) (Some "Meeting")))
    [meeting_13]
  = Return RGreeting ∅ [meeting_13].
Proof.
  apply (greeting_resets no_parse no_iso wednesday "Hello"). reflexivity.
Defined.

(** X13: a turn classified [reject] or [unknown], or classified [confirm]
    or [cancel] while no confirmation is pending, in whose text neither a
    date nor a time is found, returns the session state and the store as it
    received them, with one of the three re-prompts or the help menu: a "no"
    to the question of l.309 does not discard the pending booking. *)
Theorem rejection_changes_nothing fuzzy_parse isoformat now text
    (st : session_state) cal :
  let intent := extract_intent fuzzy_parse now text st in
  intent ∈ ["reject"; "unknown"]
  \/ intent ∈ ["confirm"; "cancel"] /\ truthy (st !! "pending_confirmation") = false ->
  (extract_date_time fuzzy_parse now text).1 = None ->
  str_truthy (extract_date_time fuzzy_parse now text).2 = false ->
  exists r,
    process_user_message fuzzy_parse isoformat now text st cal = Return r st cal
    /\ r ∈ [RStillWaitingDate; RStillWaitingTime; RStillWaitingCheckDate; RHelp].
Proof.
  intros intent Hi Hd Ht. unfold process_user_message. fold intent.
  destruct (extract_date_time fuzzy_parse now text) as [date time_str].
  simpl in Hd, Ht. subst date. clearbody intent.
  assert (E : truthy (st !! "pending_confirmation")
              && bool_decide (intent ∈ ["confirm"; "yes"; "ok"]) = false
              /\ (intent =? "select_time")%string = false
              /\ (intent =? "check_availability")%string = false
              /\ (intent =? "greeting")%string = false
              /\ (intent =? "confirm")%string
                 && truthy (st !! "pending_confirmation") = false
              /\ (intent =? "cancel")%string
                 && truthy (st !! "pending_confirmation") = false
              /\ (intent =? "check")%string = false
              /\ (intent =? "book")%string = false).
  { destruct Hi as [Hi|[Hi Hp]]; [|rewrite Hp];
      apply list_elem_of_In in Hi; simpl in Hi;
      destruct Hi as [<-|[<-|[]]]; rewrite ?andb_false_r; repeat split;
      try reflexivity;
      destruct (truthy (st !! "pending_confirmation")); reflexivity. }
  destruct E as (E1 & E2 & E3 & E4 & E5 & E6 & E7 & E8).
  rewrite E1, E2, E3, E4, E5, E6, E7, E8, andb_false_r. simpl.
  unfold flow_fallback. rewrite Ht. simpl. rewrite andb_false_r.
  repeat case_match; eexists; (split; [reflexivity|]);
    apply list_elem_of_In; simpl; auto.
Qed.

Lemma rejection_changes_nothing_witness :
  exists r,
    process_user_message no_parse no_iso wednesday "no"
      (pending st_checked
         (mk_booking tomorrow_13 "13:00" (Some 60) (Some "Meeting")))
      [meeting_13]
    = Return r
        (pending st_checked
           (mk_booking tomorrow_13 "13:00" (Some 60) (Some "Meeting")))
        [meeting_13]
    /\ r ∈ [RStillWaitingDate; RStillWaitingTime; RStillWaitingCheckDate; RHelp].
Proof.
  apply (rejection_changes_nothing no_parse no_iso wednesday "no").
  - left. apply (bool_decide_unpack _). vm_compute. exact I.
  - reflexivity.
  - reflexivity.
Defined.

(** X14: a request whose body has no ["session_state"], or an empty one, and
    whose ["text"] is missing, empty or only white space, is answered with
    the help menu and an empty session state, whatever the fuzzy parser makes
    of the text; the store is left as it was. *)
Theorem chat_blank_request fuzzy_parse isoformat now (data : request) cal :
  default ∅ (req_session_state data) = ∅ ->
  Py.strip (Py.lower (default "" (req_text data))) = "" ->
  chat fuzzy_parse isoformat now data cal = Return RHelp ∅ cal.
Proof.
  intros Hs Ht. unfold chat. rewrite Hs.
  assert (Hi : extract_intent fuzzy_parse now (default "" (req_text data)) ∅
               = "unknown").
  { unfold extract_intent. rewrite Ht. reflexivity. }
  unfold process_user_message. rewrite Hi.
  destruct (extract_date_time fuzzy_parse now _) as [date time_str] eqn:E.
  assert (Htime : time_str = None).
  { unfold extract_date_time in E. rewrite Ht in E. injection E as _ <-.
    reflexivity. }
  subst time_str. simpl. unfold flow_management, flow_fallback.
  rewrite lookup_empty. simpl. destruct date; reflexivity.
Qed.

Lemma chat_blank_request_witness :
  chat no_parse no_iso wednesday (mk_request None None) [meeting_13]
  = Return RHelp ∅ [meeting_13].
Proof.
  apply (chat_blank_request no_parse no_iso wednesday (mk_request None None));
    reflexivity.
Defined.

(** ** Turns that change the store *)

Ltac kept_cases := repeat case_match; simplify_eq; simpl; auto.

Lemma select_after_availability_kept text st cal :
  direct_or_kept cal (select_after_availability text st cal).
Proof. unfold select_after_availability. kept_cases. Qed.

Lemma check_availability_flow_kept date st cal :
  direct_or_kept cal (check_availability_flow date st cal).
Proof. unfold check_availability_flow. kept_cases. Qed.

Lemma time_selection_kept iso now text st cal :
  direct_or_kept cal (time_selection iso now text st cal).
Proof.
  unfold time_selection, select_from_availability, select_from_range.
  destruct (truthy (st !! "availability_date") && truthy (st !! "available_slots"));
    destruct (truthy (st !! "waiting_for_time") && truthy (st !! "available_slots"));
    simpl; unfold mbind, option_bind; kept_cases.
Qed.

Lemma availability_check_kept date st cal :
  direct_or_kept cal (availability_check date st cal).
Proof. unfold availability_check. kept_cases. Qed.

Lemma book_or_offer_kept d time_str st cal :
  direct_or_kept cal (book_or_offer d time_str (get_free_slots cal d) st cal).
Proof.
  unfold book_or_offer. destruct (str_truthy time_str); [|kept_cases].
  case_bool_decide as Hfree; [|simpl; auto].
  assert (Hg : default "" time_str ∈ grid).
  { pose proof (get_free_slots_grid cal d) as F. rewrite Forall_forall in F. auto. }
  destruct (grid_label_hour _ Hg) as (h & Hh & E). rewrite E in *.
  rewrite book_directly_label by exact Hh. simpl. right. split; [reflexivity|].
  eexists d, (slot_label h), _. split; [reflexivity|]. split; [reflexivity|].
  assert (Hb : books d (slot_label h)
                 (mk_event (mk_datetime (ordinal d) h 0 (second d) (microsecond d))
                    (slot_label h) 60 "Meeting")) by (split; reflexivity).
  repeat split; auto.
  apply booked_slot_not_free, Exists_app. right. constructor. exact Hb.
Qed.

Lemma booking_intent_kept text date time_str st cal :
  direct_or_kept cal (booking_intent text date time_str st cal).
Proof.
  unfold booking_intent. destruct date as [d|]; [|simpl; auto].
  destruct (Re.search _ _); [|apply book_or_offer_kept].
  unfold book_in_range. kept_cases.
Qed.

Lemma flow_management_kept date time_str st cal :
  direct_or_kept cal (flow_management date time_str st cal).
Proof.
  pose proof book_or_offer_kept as Hb.
  unfold flow_management, flow_fallback.
  repeat case_match; simplify_eq; try apply Hb; simpl; auto.
Qed.

(** X15: a turn that returns with a changed store has emptied the session
    state and appended one event, in one of two ways.  Either it booked a
    named time directly: the reply names the date and the label, the label was
    free on that date before the turn and is not free after it, and the event
    is on that date with that label, sixty minutes, titled "Meeting".  Or it
    confirmed the pending booking: [pending_confirmation] was set and the
    event is the one of the dict under [pending_booking], with sixty minutes
    and "Meeting" where the dict gives none. *)
Theorem store_changes_by_booking fuzzy_parse isoformat now text
    (st : session_state) cal r st' cal' :
  process_user_message fuzzy_parse isoformat now text st cal = Return r st' cal' ->
  cal' <> cal ->
  st' = ∅
  /\ ((exists d t e,
         r = RPerfect d t /\ cal' = (cal ++ [e])%list
         /\ books d t e /\ ev_duration e = 60 /\ ev_title e = "Meeting"
         /\ t ∈ get_free_slots cal d /\ t ∉ get_free_slots cal' d)
      \/ (exists b,
            r = RConfirmed (bk_date b)
            /\ truthy (st !! "pending_confirmation") = true
            /\ st !! "pending_booking" = Some (VBooking b)
            /\ cal' = (cal ++ [event_of_booking b])%list)).
Proof.
  unfold process_user_message.
  destruct (extract_date_time fuzzy_parse now text) as [date time_str].
  generalize (extract_intent fuzzy_parse now text st). intros intent.
  assert (Hk : forall o, direct_or_kept cal o -> o = Return r st' cal' ->
                 cal' <> cal ->
                 st' = ∅
                 /\ ((exists d t e,
                        r = RPerfect d t /\ cal' = (cal ++ [e])%list
                        /\ books d t e /\ ev_duration e = 60
                        /\ ev_title e = "Meeting"
                        /\ t ∈ get_free_slots cal d /\ t ∉ get_free_slots cal' d)
                     \/ (exists b,
                           r = RConfirmed (bk_date b)
                           /\ truthy (st !! "pending_confirmation") = true
                           /\ st !! "pending_booking" = Some (VBooking b)
                           /\ cal' = (cal ++ [event_of_booking b])%list))).
  { intros o Ho -> Hne. simpl in Ho. destruct Ho as [->|[-> Ho]]; [done|auto]. }
  destruct (truthy (st !! "pending_confirmation")) eqn:Hp; simpl.
  - destruct (bool_decide (intent ∈ ["confirm"; "yes"; "ok"])) eqn:Hc.
    + unfold confirm_pending.
      destruct (st !! "pending_booking") as [[| | |b]|] eqn:Eb; simpl;
        repeat case_match; intros Heq Hne; simplify_eq; try done.
      split; [reflexivity|]. right. exists b. auto.
    + assert (Hn : (intent =? "confirm")%string = false).
      { apply String.eqb_neq. intros ->. discriminate Hc. }
      rewrite Hn. simpl.
      repeat case_match;
        try (apply Hk;
             first [apply select_after_availability_kept
                   |apply check_availability_flow_kept
                   |apply time_selection_kept
                   |apply availability_check_kept
                   |apply booking_intent_kept
                   |apply flow_management_kept]);
        intros Heq Hne; simplify_eq; done.
  - rewrite !andb_false_r.
    repeat case_match;
      try (apply Hk;
           first [apply select_after_availability_kept
                 |apply check_availability_flow_kept
                 |apply time_selection_kept
                 |apply availability_check_kept
                 |apply booking_intent_kept
                 |apply flow_management_kept]);
      intros Heq Hne; simplify_eq; done.
Qed.

Lemma store_changes_by_booking_witness :
  (∅ : session_state) = ∅
  /\ ((exists d t e,
         RPerfect tomorrow "13:00" = RPerfect d t
         /\ [meeting_13] = ([] ++ [e])%list
         /\ books d t e /\ ev_duration e = 60 /\ ev_title e = "Meeting"
         /\ t ∈ get_free_slots [] d /\ t ∉ get_free_slots [meeting_13] d)
      \/ (exists b,
            RPerfect tomorrow "13:00" = RConfirmed (bk_date b)
            /\ truthy ((∅ : session_state) !! "pending_confirmation") = true
            /\ (∅ : session_state) !! "pending_booking" = Some (VBooking b)
            /\ [meeting_13] = ([] ++ [event_of_booking b])%list)).
Proof.
  apply (store_changes_by_booking no_parse no_iso wednesday
           "book a meeting tomorrow at 1pm" ∅ []
           (RPerfect tomorrow "13:00") ∅ [meeting_13]).
  - vm_compute. reflexivity.
  - discriminate.
Defined.

(** ** Replies that are never given *)

Ltac live_cases := repeat case_match; simplify_eq; simpl; auto.

Lemma confirm_pending_live st cal : live_reply st (confirm_pending st cal).
Proof. unfold confirm_pending. live_cases. Qed.

Lemma select_after_availability_live text st cal :
  is_Some (Py.int (Py.strip text)) ->
  live_reply st (select_after_availability text st cal).
Proof.
  intros [h Hh]. unfold select_after_availability. rewrite Hh. live_cases.
Qed.

Lemma check_availability_flow_live date st cal :
  live_reply st (check_availability_flow date st cal).
Proof. unfold check_availability_flow. live_cases. Qed.

Lemma date_for_selection_well_formed now (st : session_state) :
  well_formed st -> is_Some (date_for_selection now st).
Proof.
  intros Hw. unfold date_for_selection.
  destruct (st !! "selected_date") as [v|] eqn:E1; simpl.
  - destruct (well_formed_date st "selected_date" v Hw) as [d ->];
      [in_keys|exact E1|]. simpl. eauto.
  - destruct (st !! "availability_date") as [v|] eqn:E2; simpl; [|eauto].
    destruct (well_formed_date st "availability_date" v Hw) as [d ->];
      [in_keys|exact E2|]. simpl. eauto.
Qed.

Lemma select_from_range_live iso now text st cal o :
  is_Some (Py.int (Py.strip text)) ->
  select_from_range iso now text st cal = Some o -> live_reply st o.
Proof.
  intros [h Hh]. unfold select_from_range. rewrite Hh.
  destruct (truthy (st !! "waiting_for_time") && truthy (st !! "available_slots"))
    eqn:Hg; [|discriminate].
  apply andb_true_iff in Hg as [_ Hs].
  destruct (st !! "available_slots") as [slots|] eqn:Es; [|discriminate Hs].
  assert (Hbad : forall st1, live_reply st (Return RBadHour15 st1 cal) ->
                   live_reply st (Return RBadHour15 st1 cal)) by auto.
  destruct (py_in iso (slot_label h) slots) as [[|]|] eqn:Ein.
  - destruct (date_for_selection now st) as [d|] eqn:Ed.
    + destruct (replace_hm h 0 d) as [d'|] eqn:Er; intros [= <-]; simpl; [exact I|].
      intros Hw. destruct (well_formed_slots _ _ Hw Es) as (l & -> & _ & Hl).
      simpl in Ein. injection Ein as Ein. apply bool_decide_eq_true in Ein.
      rewrite Forall_forall in Hl.
      destruct (slot_label_grid_replace h d (Hl _ Ein)) as [x Hx]. congruence.
    + intros [= <-]. simpl. intros Hw.
      destruct (date_for_selection_well_formed now st Hw) as [x Hx]. congruence.
  - destruct (py_join iso slots) eqn:Ej; intros [= <-]; simpl; [exact I|].
    destruct slots; discriminate.
  - intros [= <-]. simpl. intros Hw.
    destruct (well_formed_slots _ _ Hw Es) as (l & -> & _). discriminate Ein.
Qed.

Lemma time_selection_live iso now text st cal :
  truthy (st !! "availability_date") = false ->
  is_Some (Py.int (Py.strip text)) ->
  live_reply st (time_selection iso now text st cal).
Proof.
  intros Ha Hh. unfold time_selection, select_from_availability. rewrite Ha. simpl.
  destruct (select_from_range _ _ _ _ _) eqn:E;
    [eapply select_from_range_live; eauto|exact I].
Qed.

Lemma availability_check_live date st cal :
  live_reply st (availability_check date st cal).
Proof. unfold availability_check. live_cases. Qed.

Lemma booking_intent_live text date time_str st cal :
  live_reply st (booking_intent text date time_str st cal).
Proof.
  unfold booking_intent, book_in_range, book_or_offer, book_directly. live_cases.
Qed.

Lemma flow_management_live date time_str st cal :
  live_reply st (flow_management date time_str st cal).
Proof.
  unfold flow_management, flow_fallback, book_or_offer, book_directly. live_cases.
Qed.

(** X16: four replies of the source are never given.  "Your meeting has been
    booked for ..." (l.432) is shadowed by the confirmation of l.258; "Sorry,
    I didn't understand that time ... '13' for 1 PM" (l.297) needs a text that
    passed [^\d{1,2}$] and yet is refused by [int]; "... is not an available
    slot. Please select one of the available times." (l.364) is shadowed by
    l.285; and "Sorry, I didn't understand that time ... '15' for 3 PM"
    (l.407) is returned only to a session state that is not well formed, and
    so to no state that a conversation reaches. *)
Theorem replies_never_given fuzzy_parse isoformat now text
    (st : session_state) cal :
  live_reply st (process_user_message fuzzy_parse isoformat now text st cal).
Proof.
  unfold process_user_message.
  assert (Hsel : (extract_intent fuzzy_parse now text st =? "select_time")%string
                 = true -> is_Some (Py.int (Py.strip text))).
  { intros H%String.eqb_eq. apply select_time_inv in H as [Hn _].
    destruct (number_turn_hour _ Hn) as (h & Hh & _). eauto. }
  destruct (extract_date_time fuzzy_parse now text) as [date time_str].
  revert Hsel. generalize (extract_intent fuzzy_parse now text st).
  intros intent Hsel.
  destruct (truthy (st !! "pending_confirmation")) eqn:Hp; simpl.
  - destruct (bool_decide (intent ∈ ["confirm"; "yes"; "ok"])) eqn:Hc;
      [apply confirm_pending_live|].
    assert (Hn : (intent =? "confirm")%string = false).
    { apply String.eqb_neq. intros ->. discriminate Hc. }
    rewrite Hn. simpl.
    destruct (truthy (st !! "availability_date")) eqn:Ha; simpl;
      destruct (intent =? "select_time")%string eqn:Hi;
      repeat case_match;
      first [ apply select_after_availability_live; auto
            | apply check_availability_flow_live
            | apply time_selection_live; auto
            | apply availability_check_live
            | apply booking_intent_live
            | apply flow_management_live
            | exact I ].
  - rewrite !andb_false_r.
    destruct (truthy (st !! "availability_date")) eqn:Ha; simpl;
      destruct (intent =? "select_time")%string eqn:Hi;
      repeat case_match;
      first [ apply select_after_availability_live; auto
            | apply check_availability_flow_live
            | apply time_selection_live; auto
            | apply availability_check_live
            | apply booking_intent_live
            | apply flow_management_live
            | exact I ].
Qed.

(** ** What the matcher captures *)

Lemma append_assoc (x y z : string) : (x +:+ y) +:+ z = x +:+ (y +:+ z).
Proof.
  induction x as [|c x IH]; [reflexivity|].
  change (String c ((x +:+ y) +:+ z) = String c (x +:+ (y +:+ z))).
  f_equal. exact IH.
Qed.

Lemma append_nil_r (x : string) : x +:+ "" = x.
Proof.
  induction x as [|c x IH]; [reflexivity|].
  change (String c (x +:+ "") = String c x). f_equal. exact IH.
Qed.

Lemma taken_app (w s' : string) : Re.taken (w +:+ s') s' = w.
Proof.
  unfold Re.taken. rewrite length_append.
  replace (String.length w + String.length s' - String.length s')%nat
    with (String.length w) by lia.
  induction w as [|c w IH]; simpl.
  - destruct s'; reflexivity.
  - rewrite IH. reflexivity.
Qed.

Lemma eat_sound (l : string) prev s prev' s' :
  Re.eat l prev s = Some (prev', s') -> s = l +:+ s'.
Proof.
  revert prev s. induction l as [|c l IH]; simpl; intros prev s H.
  - injection H as _ <-. reflexivity.
  - destruct s as [|d s]; [discriminate|].
    destruct (Ascii.eqb_spec c d) as [->|]; [|discriminate].
    rewrite (IH _ _ H). reflexivity.
Qed.

Lemma star_sound {R} (p : ascii -> bool) prev s g (k : Re.cont (R:=R)) x :
  Re.star p prev s g k = Some x ->
  exists w s' prev',
    s = w +:+ s' /\ all_chars p w = true /\ k prev' s' g = Some x.
Proof.
  revert prev. induction s as [|c s IH]; simpl; intros prev H.
  - exists "", "", prev. auto.
  - destruct (p c) eqn:Hp; [|exists "", (String c s), prev; auto].
    destruct (Re.star p (Some c) s g k) as [y|] eqn:E.
    + injection H as <-. destruct (IH _ E) as (w & s' & prev' & -> & Hw & Hk).
      exists (String c w), s', prev'. simpl. rewrite Hp, Hw. auto.
    + exists "", (String c s), prev. auto.
Qed.

(** Soundness of the matcher: a run that succeeds has consumed a text the
    pattern can match, and has handed the groups of that match to its
    continuation. *)
Lemma run_sound {R} (r : Re.regex) :
  forall prev s g (k : Re.cont (R:=R)) x,
    Re.run r prev s g k = Some x ->
    exists w s' prev' g',
      s = w +:+ s' /\ matched r w g' /\ k prev' s' (g' ++ g)%list = Some x.
Proof.
  induction r as [|p|l|r1 IH1 r2 IH2|r1 IH1 r2 IH2|r1 IH1|p|i r1 IH1| | |];
    simpl; intros prev s g k x H.
  - exists "", s, prev, []. split; [reflexivity|]. split; [constructor|exact H].
  - destruct s as [|c s]; [discriminate|]. destruct (p c) eqn:Hp; [|discriminate].
    exists (String c ""), s, (Some c), [].
    split; [reflexivity|]. split; [constructor; exact Hp|exact H].
  - destruct (Re.eat l prev s) as [[prev' s']|] eqn:E; [|discriminate].
    exists l, s', prev', []. split; [eapply eat_sound; eauto|].
    split; [constructor|exact H].
  - destruct (IH1 _ _ _ _ _ H) as (w1 & s1 & p1 & g1 & -> & M1 & H1).
    destruct (IH2 _ _ _ _ _ H1) as (w2 & s2 & p2 & g2 & -> & M2 & H2).
    exists (w1 +:+ w2), s2, p2, (g2 ++ g1)%list.
    split; [symmetry; apply append_assoc|].
    split; [constructor; assumption|]. rewrite <- app_assoc. exact H2.
  - destruct (Re.run r1 prev s g k) as [y|] eqn:E.
    + injection H as <-.
      destruct (IH1 _ _ _ _ _ E) as (w & s' & p' & g' & -> & M & Hk).
      exists w, s', p', g'. split; [reflexivity|]. split; [apply m_alt_l, M|exact Hk].
    + destruct (IH2 _ _ _ _ _ H) as (w & s' & p' & g' & -> & M & Hk).
      exists w, s', p', g'. split; [reflexivity|]. split; [apply m_alt_r, M|exact Hk].
  - destruct (Re.run r1 prev s g k) as [y|] eqn:E.
    + injection H as <-.
      destruct (IH1 _ _ _ _ _ E) as (w & s' & p' & g' & -> & M & Hk).
      exists w, s', p', g'. split; [reflexivity|].
      split; [apply m_opt_some, M|exact Hk].
    + exists "", s, prev, []. split; [reflexivity|]. split; [constructor|exact H].
  - destruct (star_sound _ _ _ _ _ _ H) as (w & s' & p' & -> & Hw & Hk).
    exists w, s', p', []. split; [reflexivity|]. split; [constructor; exact Hw|exact Hk].
  - destruct (IH1 _ _ _ _ _ H) as (w & s' & p' & g' & -> & M & Hk).
    rewrite taken_app in Hk.
    exists w, s', p', ((i, w) :: g'). split; [reflexivity|].
    split; [constructor; exact M|exact Hk].
  - destruct prev; [discriminate|].
    exists "", s, None, []. split; [reflexivity|]. split; [constructor|exact H].
  - destruct (Re.at_end s); [|discriminate].
    exists "", s, prev, []. split; [reflexivity|]. split; [constructor|exact H].
  - destruct (xorb _ _); [|discriminate].
    exists "", s, prev, []. split; [reflexivity|]. split; [constructor|exact H].
Qed.

Lemma search_sound (r : Re.regex) (s : string) (g : Re.groups) :
  Re.search r s = Some g -> exists w, matched r w g.
Proof.
  unfold Re.search. generalize (@None ascii).
  induction s as [|c s IH]; intros prev; simpl.
  - destruct (Re.match_here r prev "") as [[rest g']|] eqn:E; [|discriminate].
    intros [= <-]. unfold Re.match_here in E.
    destruct (run_sound _ _ _ _ _ _ E) as (w & s' & p' & g1 & _ & M & Hk).
    rewrite app_nil_r in Hk. injection Hk as _ <-. eauto.
  - destruct (Re.match_here r prev (String c s)) as [[rest g']|] eqn:E.
    + intros [= <-]. unfold Re.match_here in E.
      destruct (run_sound _ _ _ _ _ _ E) as (w & s' & p' & g1 & _ & M & Hk).
      rewrite app_nil_r in Hk. injection Hk as _ <-. eauto.
    + apply IH.
Qed.

(** ** [parse_time_to_hour] on the texts the range pattern captures *)

Lemma append_cons (c : ascii) (x y : string) :
  String c x +:+ y = String c (x +:+ y).
Proof. reflexivity. Qed.

Lemma all_chars_app (p : ascii -> bool) (x y : string) :
  all_chars p (x +:+ y) = all_chars p x && all_chars p y.
Proof.
  induction x as [|c x IH]; [reflexivity|].
  rewrite append_cons. simpl. rewrite IH, andb_assoc. reflexivity.
Qed.

Lemma all_chars_impl (p q : ascii -> bool) (x : string) :
  (forall c, p c = true -> q c = true) ->
  all_chars p x = true -> all_chars q x = true.
Proof.
  intros Hpq. induction x as [|c x IH]; simpl; [reflexivity|].
  intros H. apply andb_true_iff in H as [Hc Hx].
  rewrite (Hpq c Hc), (IH Hx). reflexivity.
Qed.

(** A character that is a digit, a colon or a space is no letter. *)
Definition plain_char (c : ascii) : bool := clock_char c || Py.is_space c.

Lemma plain_char_lower (c : ascii) : plain_char c = true -> Py.lower_char c = c.
Proof. destruct c as [[] [] [] [] [] [] [] []]; vm_compute; congruence. Qed.

Lemma plain_char_not (c : ascii) :
  plain_char c = true ->
  Ascii.eqb c "p" = false /\ Ascii.eqb c "a" = false.
Proof. destruct c as [[] [] [] [] [] [] [] []]; vm_compute; intuition congruence. Qed.

Lemma clock_char_not_space (c : ascii) :
  clock_char c = true -> Py.is_space c = false.
Proof. destruct c as [[] [] [] [] [] [] [] []]; vm_compute; congruence. Qed.

Lemma digit_not_colon (c : ascii) :
  Py.is_digit c = true -> Ascii.eqb c ":" = false.
Proof. destruct c as [[] [] [] [] [] [] [] []]; vm_compute; congruence. Qed.

Lemma lower_app (x y : string) : Py.lower (x +:+ y) = Py.lower x +:+ Py.lower y.
Proof.
  induction x as [|c x IH]; [reflexivity|].
  rewrite append_cons. simpl. rewrite IH. reflexivity.
Qed.

Lemma lower_plain (x : string) : all_chars plain_char x = true -> Py.lower x = x.
Proof.
  induction x as [|c x IH]; simpl; [reflexivity|].
  intros H. apply andb_true_iff in H as [Hc Hx].
  rewrite (plain_char_lower c Hc), (IH Hx). reflexivity.
Qed.

(** A text without the first character of the needle does not contain it. *)
Lemma contains_absent (n0 : ascii) (n' x : string) :
  all_chars (fun c => negb (Ascii.eqb c n0)) x = true ->
  Py.contains (String n0 n') x = false.
Proof.
  induction x as [|c x IH]; simpl; [reflexivity|].
  intros H. apply andb_true_iff in H as [Hc Hx]. rewrite (IH Hx).
  destruct (ascii_dec n0 c) as [->|]; [|reflexivity].
  rewrite Ascii.eqb_refl in Hc. discriminate Hc.
Qed.

Lemma prefix_refl (n : string) : String.prefix n n = true.
Proof.
  induction n as [|c n IH]; simpl; [reflexivity|].
  destruct (ascii_dec c c); [exact IH|congruence].
Qed.

Lemma prefix_app (n y : string) : String.prefix n (n +:+ y) = true.
Proof.
  induction n as [|c n IH]; [destruct y; reflexivity|].
  rewrite append_cons. simpl. destruct (ascii_dec c c); [exact IH|congruence].
Qed.

Lemma contains_app_r (n x y : string) :
  Py.contains n y = true -> Py.contains n (x +:+ y) = true.
Proof.
  intros H. induction x as [|c x IH]; [exact H|].
  rewrite append_cons. simpl. rewrite IH. apply orb_true_r.
Qed.

Lemma contains_self (n : string) : Py.contains n n = true.
Proof.
  destruct n as [|a n]; [reflexivity|].
  change (Py.contains (String a n) (String a n))
    with (String.prefix (String a n) (String a n) || Py.contains (String a n) n).
  rewrite prefix_refl. reflexivity.
Qed.

(** Removing a two-character suffix that occurs nowhere else. *)
Lemma remove_suffix (a b : ascii) (x : string) :
  a <> b ->
  all_chars (fun c => negb (Ascii.eqb c a)) x = true ->
  Py.remove_all (String a (String b "")) (x +:+ String a (String b "")) = x.
Proof.
  intros Hab. unfold Py.remove_all.
  induction x as [|c x IH]; intros H.
  - simpl. destruct (ascii_dec a a); [|congruence].
    destruct (ascii_dec b b); [reflexivity|congruence].
  - simpl in H. apply andb_true_iff in H as [Hc Hx].
    rewrite append_cons. cbn [Py.remove_from].
    replace (String.prefix (String a (String b "")) (String c (x +:+ String a (String b ""))))
      with false.
    + rewrite (IH Hx). reflexivity.
    + simpl. destruct (ascii_dec a c) as [->|]; [|reflexivity].
      rewrite Ascii.eqb_refl in Hc. discriminate Hc.
Qed.

Lemma rstrip_spaces (sp : string) :
  all_chars Py.is_space sp = true -> Py.rstrip sp = "".
Proof.
  induction sp as [|c sp IH]; simpl; [reflexivity|].
  intros H. apply andb_true_iff in H as [Hc Hs]. rewrite (IH Hs), Hc. reflexivity.
Qed.

Lemma rstrip_app_spaces (x sp : string) :
  all_chars Py.is_space sp = true -> Py.rstrip (x +:+ sp) = Py.rstrip x.
Proof.
  intros Hs. induction x as [|c x IH]; [apply rstrip_spaces, Hs|].
  rewrite append_cons. simpl. rewrite IH. reflexivity.
Qed.

Lemma rstrip_no_space (x : string) :
  all_chars (fun c => negb (Py.is_space c)) x = true -> Py.rstrip x = x.
Proof.
  induction x as [|c x IH]; simpl; [reflexivity|].
  intros H. apply andb_true_iff in H as [Hc Hx]. rewrite (IH Hx).
  apply negb_true_iff in Hc. rewrite Hc. destruct x; reflexivity.
Qed.

(** A text that ends with a text that [rstrip] keeps is kept whole. *)
Lemma rstrip_app_kept (x y : string) :
  y <> "" -> Py.rstrip y = y -> Py.rstrip (x +:+ y) = x +:+ y.
Proof.
  intros Hy Hk. induction x as [|c x IH]; [exact Hk|].
  rewrite append_cons. simpl. rewrite IH.
  destruct (x +:+ y) eqn:E; [|reflexivity].
  destruct x; [change (y = "") in E; congruence|discriminate E].
Qed.

Lemma lstrip_clock (x y : string) :
  x <> "" -> all_chars clock_char x = true -> Py.lstrip (x +:+ y) = x +:+ y.
Proof.
  destruct x as [|c x]; [congruence|]. intros _ H. simpl in H.
  apply andb_true_iff in H as [Hc _]. rewrite append_cons. simpl.
  rewrite (clock_char_not_space c Hc). reflexivity.
Qed.

Ltac inv_matched H := inversion H; subst; clear H.

Lemma matched_d12 (w : string) (g : Re.groups) :
  matched Re.d12 w g -> digits12 w = true /\ g = [].
Proof.
  unfold Re.d12, Re.d. intros H. inv_matched H.
  match goal with H1 : matched (Re.Cls _) _ _ |- _ => inv_matched H1 end.
  match goal with H1 : matched (Re.Opt _) _ _ |- _ => inv_matched H1 end.
  - split; [simpl; assumption|reflexivity].
  - match goal with H1 : matched (Re.Cls _) _ _ |- _ => inv_matched H1 end.
    split; [simpl; apply andb_true_iff; split; assumption|reflexivity].
Qed.

Lemma matched_colon_minutes (w : string) (g : Re.groups) :
  matched (Re.Opt (Re.Cat (Re.Lit ":") Re.d2)) w g ->
  g = []
  /\ (w = ""
      \/ exists a b, Py.is_digit a = true /\ Py.is_digit b = true
                     /\ w = String ":" (String a (String b ""))).
Proof.
  unfold Re.d2, Re.d. intros H. inv_matched H; [auto|].
  match goal with H1 : matched (Re.Cat _ _) _ _ |- _ => inv_matched H1 end.
  match goal with H1 : matched (Re.Lit _) _ _ |- _ => inv_matched H1 end.
  match goal with H1 : matched (Re.Cat _ _) _ _ |- _ => inv_matched H1 end.
  repeat match goal with H1 : matched (Re.Cls _) _ _ |- _ => inv_matched H1 end.
  split; [reflexivity|]. right. eauto.
Qed.

Lemma matched_ampm (w : string) (g : Re.groups) :
  matched (Re.Opt Re.ampm) w g -> g = [] /\ (w = "" \/ w = "am" \/ w = "pm").
Proof.
  unfold Re.ampm. intros H. inv_matched H; [auto|].
  match goal with H1 : matched (Re.Alt _ _) _ _ |- _ => inv_matched H1 end;
    match goal with H1 : matched (Re.Lit _) _ _ |- _ => inv_matched H1 end; auto.
Qed.

Lemma matched_ws (w : string) (g : Re.groups) :
  matched Re.ws w g -> g = [] /\ all_chars Py.is_space w = true.
Proof. unfold Re.ws. intros H. inv_matched H. auto. Qed.

Lemma matched_clock (w : string) (g : Re.groups) :
  matched pat_clock w g ->
  g = []
  /\ exists ds cp sp ap,
       w = ds +:+ (cp +:+ (sp +:+ ap))
       /\ digits12 ds = true
       /\ (cp = ""
           \/ exists a b, Py.is_digit a = true /\ Py.is_digit b = true
                          /\ cp = String ":" (String a (String b "")))
       /\ all_chars Py.is_space sp = true
       /\ (ap = "" \/ ap = "am" \/ ap = "pm").
Proof.
  unfold pat_clock. intros H. inv_matched H.
  match goal with H1 : matched (Re.Cat _ _) _ _ |- _ => inv_matched H1 end.
  match goal with H1 : matched (Re.Cat _ _) _ _ |- _ => inv_matched H1 end.
  repeat match goal with
  | H1 : matched Re.d12 _ _ |- _ => apply matched_d12 in H1 as [? ->]
  | H1 : matched (Re.Opt (Re.Cat _ _)) _ _ |- _ =>
      apply matched_colon_minutes in H1 as [-> ?]
  | H1 : matched Re.ws _ _ |- _ => apply matched_ws in H1 as [-> ?]
  | H1 : matched (Re.Opt Re.ampm) _ _ |- _ => apply matched_ampm in H1 as [-> ?]
  end.
  split; [reflexivity|]. eexists _, _, _, _. eauto.
Qed.

Lemma matched_between (w : string) (g : Re.groups) :
  matched pat_between w g ->
  exists w1 w2 g1 g2,
    matched pat_clock w1 g1 /\ matched pat_clock w2 g2
    /\ group_text 1 g = w1 /\ group_text 2 g = w2.
Proof.
  unfold pat_between, Re.ws1. intros H. inv_matched H.
  repeat match goal with
  | H1 : matched (Re.Cat _ _) _ _ |- _ => inv_matched H1
  | H1 : matched (Re.Lit _) _ _ |- _ => inv_matched H1
  | H1 : matched (Re.Cls _) _ _ |- _ => inv_matched H1
  | H1 : matched (Re.Grp _ _) _ _ |- _ => inv_matched H1
  | H1 : matched Re.ws _ _ |- _ => apply matched_ws in H1 as [-> ?]
  end.
  repeat match goal with
  | H1 : matched pat_clock _ _ |- _ =>
      let H2 := fresh in pose proof (matched_clock _ _ H1) as [-> _]; revert H1
  end.
  intros. eexists _, _, _, _.
  refine (conj _ (conj _ (conj eq_refl eq_refl))); simpl; eassumption.
Qed.

Lemma clock_plain (x : string) :
  all_chars clock_char x = true -> all_chars plain_char x = true.
Proof.
  apply all_chars_impl. intros c H. unfold plain_char. rewrite H. reflexivity.
Qed.

Lemma space_plain (x : string) :
  all_chars Py.is_space x = true -> all_chars plain_char x = true.
Proof.
  apply all_chars_impl. intros c H. unfold plain_char. rewrite H.
  apply orb_true_r.
Qed.

Lemma plain_no_p (x : string) :
  all_chars plain_char x = true ->
  all_chars (fun c => negb (Ascii.eqb c "p")) x = true.
Proof.
  apply all_chars_impl. intros c H. destruct (plain_char_not c H) as [-> _].
  reflexivity.
Qed.

Lemma plain_no_a (x : string) :
  all_chars plain_char x = true ->
  all_chars (fun c => negb (Ascii.eqb c "a")) x = true.
Proof.
  apply all_chars_impl. intros c H. destruct (plain_char_not c H) as [_ ->].
  reflexivity.
Qed.

Lemma clock_no_space (x : string) :
  all_chars clock_char x = true ->
  all_chars (fun c => negb (Py.is_space c)) x = true.
Proof.
  apply all_chars_impl. intros c H. rewrite (clock_char_not_space c H).
  reflexivity.
Qed.

Lemma strip_clock_spaces (core sp : string) :
  core <> "" -> all_chars clock_char core = true ->
  all_chars Py.is_space sp = true ->
  Py.strip (core +:+ sp) = core.
Proof.
  intros Hne Hc Hs. unfold Py.strip.
  rewrite (lstrip_clock _ _ Hne Hc), (rstrip_app_spaces _ _ Hs).
  apply rstrip_no_space, clock_no_space, Hc.
Qed.

Lemma parse_clock_word (core sp ap : string) :
  core <> "" -> all_chars clock_char core = true ->
  all_chars Py.is_space sp = true ->
  ap = "" \/ ap = "am" \/ ap = "pm" ->
  parse_time_to_hour (core +:+ (sp +:+ ap)) = adjust ap <$> hour_of core.
Proof.
  intros Hne Hc Hs Hap.
  assert (Hp : all_chars plain_char (core +:+ sp) = true).
  { rewrite all_chars_app, (clock_plain _ Hc), (space_plain _ Hs). reflexivity. }
  unfold parse_time_to_hour. fold (hour_of).
  destruct Hap as [->|[->| ->]].
  - rewrite append_nil_r, (strip_clock_spaces _ _ Hne Hc Hs).
    rewrite (lower_plain _ (clock_plain _ Hc)).
    rewrite (contains_absent "p" "m" _ (plain_no_p _ (clock_plain _ Hc))).
    rewrite (contains_absent "a" "m" _ (plain_no_a _ (clock_plain _ Hc))).
    fold (hour_of core). destruct (hour_of core); reflexivity.
  - rewrite <- append_assoc.
    assert (Hst : Py.strip ((core +:+ sp) +:+ "am") = (core +:+ sp) +:+ "am").
    { unfold Py.strip. rewrite append_assoc, (lstrip_clock _ _ Hne Hc).
      rewrite <- append_assoc. apply rstrip_app_kept; [discriminate|reflexivity]. }
    rewrite Hst, lower_app, (lower_plain _ Hp).
    change (Py.lower "am") with "am".
    rewrite (contains_absent "p" "m").
    2:{ rewrite all_chars_app, (plain_no_p _ Hp). reflexivity. }
    rewrite (contains_app_r "am" _ "am" (contains_self "am")).
    rewrite (remove_suffix "a" "m" _ ltac:(discriminate) (plain_no_a _ Hp)).
    rewrite (strip_clock_spaces _ _ Hne Hc Hs).
    fold (hour_of core). destruct (hour_of core); reflexivity.
  - rewrite <- append_assoc.
    assert (Hst : Py.strip ((core +:+ sp) +:+ "pm") = (core +:+ sp) +:+ "pm").
    { unfold Py.strip. rewrite append_assoc, (lstrip_clock _ _ Hne Hc).
      rewrite <- append_assoc. apply rstrip_app_kept; [discriminate|reflexivity]. }
    rewrite Hst, lower_app, (lower_plain _ Hp).
    change (Py.lower "pm") with "pm".
    rewrite (contains_app_r "pm" _ "pm" (contains_self "pm")).
    rewrite (remove_suffix "p" "m" _ ltac:(discriminate) (plain_no_p _ Hp)).
    rewrite (strip_clock_spaces _ _ Hne Hc Hs).
    fold (hour_of core). destruct (hour_of core); reflexivity.
Qed.

Lemma digits12_clock (ds : string) :
  digits12 ds = true -> ds <> "" /\ all_chars clock_char ds = true.
Proof.
  unfold clock_char.
  destruct ds as [|a [|b [|]]]; simpl; try discriminate.
  - intros ->. split; [discriminate|reflexivity].
  - intros H. apply andb_true_iff in H as [-> ->]. split; [discriminate|reflexivity].
Qed.

Lemma hour_of_digits (ds : string) :
  digits12 ds = true -> hour_of ds = Py.int ds.
Proof.
  intros H. unfold hour_of. rewrite (contains_absent ":" ""); [reflexivity|].
  destruct ds as [|a [|b [|]]]; simpl in *; try discriminate.
  - rewrite (digit_not_colon a H). reflexivity.
  - apply andb_true_iff in H as [Ha Hb].
    rewrite (digit_not_colon a Ha), (digit_not_colon b Hb). reflexivity.
Qed.

Lemma hour_of_digits_minutes (ds : string) (a b : ascii) :
  digits12 ds = true -> Py.is_digit a = true -> Py.is_digit b = true ->
  hour_of (ds +:+ String ":" (String a (String b ""))) = Py.int ds.
Proof.
  intros H Ha Hb. unfold hour_of.
  rewrite (contains_app_r ":" ds); [|reflexivity].
  unfold hour_before_colon.
  destruct ds as [|x [|y [|]]]; simpl in H; try discriminate.
  - rewrite !append_cons. change ("" +:+ ?s) with s.
    cbn [Py.split_on]. rewrite (digit_not_colon x H), (digit_not_colon a Ha),
      (digit_not_colon b Hb). reflexivity.
  - apply andb_true_iff in H as [Hx Hy].
    rewrite !append_cons. change ("" +:+ ?s) with s.
    cbn [Py.split_on]. rewrite (digit_not_colon x Hx), (digit_not_colon y Hy),
      (digit_not_colon a Ha), (digit_not_colon b Hb). reflexivity.
Qed.

(** A text the clock pattern matches is a number of one or two digits, then
    perhaps minutes, spaces and am or pm; its hour is that number, adjusted. *)
Lemma parse_time_to_hour_clock (w : string) (g : Re.groups) :
  matched pat_clock w g ->
  exists h, 0 <= h <= 99
    /\ (parse_time_to_hour w = Some h
        \/ parse_time_to_hour w = Some (if h =? 12 then 0 else h)
        \/ parse_time_to_hour w = Some (if h =? 12 then h else h + 12)).
Proof.
  intros H. apply matched_clock in H
    as (_ & ds & cp & sp & ap & -> & Hd & Hcp & Hs & Hap).
  destruct (digits12_int _ Hd) as (h & Hh & Hr). exists h. split; [exact Hr|].
  destruct (digits12_clock _ Hd) as [Hne Hc].
  assert (Hcore : ds +:+ cp <> "" /\ all_chars clock_char (ds +:+ cp) = true
                  /\ hour_of (ds +:+ cp) = Some h).
  { destruct Hcp as [->|(a & b & Ha & Hb & ->)].
    - rewrite append_nil_r, hour_of_digits by exact Hd. auto.
    - rewrite hour_of_digits_minutes by assumption.
      split; [destruct ds; discriminate|]. split; [|exact Hh].
      rewrite all_chars_app, Hc. unfold clock_char. simpl. rewrite Ha, Hb.
      reflexivity. }
  destruct Hcore as (Hne' & Hc' & Hh').
  rewrite <- append_assoc,
    (parse_clock_word _ _ _ Hne' Hc' Hs Hap), Hh'.
  destruct Hap as [->|[->| ->]]; simpl; auto.
Qed.

(** ** A range of hours in a request to book *)

Lemma range_hours (g : Re.groups) (s : string) :
  Re.search pat_between s = Some g ->
  exists a b,
    parse_time_to_hour (group_text 1 g) = Some a
    /\ parse_time_to_hour (group_text 2 g) = Some b.
Proof.
  intros H. apply search_sound in H as [w H].
  apply matched_between in H as (w1 & w2 & g1 & g2 & H1 & H2 & -> & ->).
  destruct (parse_time_to_hour_clock _ _ H1) as (a & _ & [Ha|[Ha|Ha]]);
    destruct (parse_time_to_hour_clock _ _ H2) as (b & _ & [Hb|[Hb|Hb]]);
    rewrite Ha, Hb; eauto.
Qed.

(** X17: a request to book that names a day and a range of hours, "between
    3 - 5 pm", never raises and never falls through to l.512: both texts the
    pattern of l.480 captures are read by [parse_time_to_hour], and the reply
    lists the free slots of the day whose hour lies between the two hours
    (l.503), or says that there is none (l.508). *)
Theorem range_request_returns (text : string) (d : datetime)
    (time_str : option string) (st : session_state) (cal : list event)
    (g : Re.groups) :
  Re.search pat_between (Py.lower text) = Some g ->
  exists a b,
    parse_time_to_hour (group_text 1 g) = Some a
    /\ parse_time_to_hour (group_text 2 g) = Some b
    /\ booking_intent text (Some d) time_str st cal
       = let st1 := <["selected_date" := VIso d]>
                      (<["booking_flow" := VBool true]> st) in
         match slot_label
                 <$> List.filter (fun h => (a <=? h) && (h <=? b))
                       (free_hours cal d) with
         | [] => Return (RNoRange d (group_text 1 g) (group_text 2 g)) st1 cal
         | l =>
             Return (RRange d (group_text 1 g) (group_text 2 g) l)
               (<["available_slots" := VSlots l]>
                  (<["waiting_for_time" := VBool true]> st1))
               cal
         end.
Proof.
  intros H. destruct (range_hours _ _ H) as (a & b & Ha & Hb).
  exists a, b. split; [exact Ha|]. split; [exact Hb|].
  unfold booking_intent, book_in_range. rewrite H, Ha, Hb.
  rewrite get_free_slots_hours, slots_in_range_labels.
  - simpl. destruct (slot_label <$> _); reflexivity.
  - eapply Forall_impl; [apply free_hours_range|]. simpl. intros. lia.
Qed.

Lemma range_request_returns_witness :
  booking_intent "book a meeting between 3-5 PM next week" (Some next_monday)
    None ∅ []
  = Return (RRange next_monday "3" "5 pm" grid)
      (<["available_slots" := VSlots grid]>
         (<["waiting_for_time" := VBool true]>
            (<["selected_date" := VIso next_monday]>
               (<["booking_flow" := VBool true]> ∅))))
      [].
Proof.
  destruct (range_request_returns "book a meeting between 3-5 PM next week"
              next_monday None ∅ [] [(2%nat, "5 pm"); (1%nat, "3")])
    as (a & b & Ha & Hb & E); [vm_compute; reflexivity|].
  vm_compute in Ha, Hb. injection Ha as <-. injection Hb as <-. exact E.
Defined.

(** ** The turns that raise *)















